(** * news_extraction: deduplication engine and pipeline orchestrator

    A shallow embedding of
      - [src/news_extraction_prod/src/deduplicator.py]
        ([find_duplicates], [remove_duplicates]),
      - [src/news_extraction_prod/src/ai_summarizer.py]
        ([AISummarizer.summarize], [_fallback_summary],
        [process_article_summaries], [generate_meta_summary],
        [_ai_meta_summarize], [_fallback_meta_summary]),
      - [src/news_extraction_prod/src/news_pipeline.py]
        ([NewsProcessor] and its stages),
      - [src/news_extraction_prod/main.py] ([process_daily_news]),
      - [src/cloud_build_temp/src/rss_fetcher.py]
        ([fetch_rss_feed], [fetch_all_sources]),
      - [src/cloud_build_temp/src/content_extractor.py]
        ([extract_article_content], [extract_content_batch]),
      - [src/cloud_build_temp/src/telegram_sender.py]
        ([send_podcast_sync], [send_text_summary_sync],
        [send_daily_podcast]),
    together with the properties of the specification that concern them.
    Strings are byte strings; [lower], [strip] and [len] are those of
    Python on ASCII text.

    Python dictionaries with a fixed set of keys are records whose fields
    are options ([None] is an absent key); Python sets of indices are
    [gset nat]; lists are lists.  Collaborators that live outside the
    repository (scikit-learn's TF-IDF vectoriser and cosine similarity, the
    feed fetcher, the language model, the text-to-speech engine, Telegram)
    are fields of an environment: each returns either a value or the
    message of the exception it raised. *)

From Stdlib Require Import QArith Ascii String.
From stdpp Require Import gmap strings list pretty.

Close Scope Q_scope.
Open Scope string_scope.

(** ** Python values used by the code *)

(** A call into a collaborator: [inl msg] is a raised exception whose
    [str(e)] is [msg], [inr v] a returned value. *)
Definition result (A : Type) : Type := (string + A)%type.

(** Truthiness of a Python string: [if s:]. *)
Definition truthy (s : string) : bool :=
  match s with
  | EmptyString => false
  | String _ _ => true
  end.

(** [d.get(key, dflt)] for a key whose value, when present, is a string. *)
Definition get (field : option string) (dflt : string) : string :=
  default dflt field.

Module Str.

(** [str.lower] on the ASCII range; bytes outside it are left alone. *)
Definition lower_char (c : ascii) : ascii :=
  let n := nat_of_ascii c in
  if (65 <=? n)%nat && (n <=? 90)%nat then ascii_of_nat (n + 32) else c.

Fixpoint lower (s : string) : string :=
  match s with
  | EmptyString => EmptyString
  | String c r => String (lower_char c) (lower r)
  end.

(** The characters [str.strip()] removes (ASCII range): tab, line feed,
    vertical tab, form feed, carriage return, the four separators
    0x1c-0x1f and the space. *)
Definition is_space (c : ascii) : bool :=
  let n := nat_of_ascii c in
  ((9 <=? n)%nat && (n <=? 13)%nat) || ((28 <=? n)%nat && (n <=? 32)%nat).

Fixpoint lstrip (s : string) : string :=
  match s with
  | EmptyString => EmptyString
  | String c r => if is_space c then lstrip r else s
  end.

(** [rstrip] keeps a character when it is not a space or when something
    survives to its right. *)
Fixpoint rstrip (s : string) : string :=
  match s with
  | EmptyString => EmptyString
  | String c r =>
      match rstrip r with
      | EmptyString => if is_space c then EmptyString else String c EmptyString
      | r' => String c r'
      end
  end.

Definition strip (s : string) : string := rstrip (lstrip s).

(** [s.startswith(p)]. *)
Fixpoint startswith (p s : string) : bool :=
  match p, s with
  | EmptyString, _ => true
  | String a p', String b s' => if Ascii.eqb a b then startswith p' s' else false
  | String _ _, EmptyString => false
  end.

(** [needle in hay]. *)
Fixpoint contains (needle hay : string) : bool :=
  startswith needle hay ||
  match hay with
  | EmptyString => false
  | String _ r => contains needle r
  end.

(** [s.endswith(".")]. *)
Fixpoint endswith_dot (s : string) : bool :=
  match s with
  | EmptyString => false
  | String c EmptyString => Ascii.eqb c "."
  | String _ r => endswith_dot r
  end.

(** [s.split('. ')]: the pieces between the occurrences of a full stop
    followed by a space, scanned from the left.  [cur] is the piece being
    read, reversed. *)
Fixpoint split_dot_space_aux (cur : string) (s : string) : list string :=
  match s with
  | EmptyString => [String.rev cur]
  | String "." (String " " r) => String.rev cur :: split_dot_space_aux "" r
  | String c r => split_dot_space_aux (String c cur) r
  end.

Definition split_dot_space (s : string) : list string :=
  split_dot_space_aux "" s.

(** ['. '.join(parts)]. *)
Fixpoint join_dot_space (parts : list string) : string :=
  match parts with
  | [] => ""
  | [p] => p
  | p :: ps => p ++ ". " ++ join_dot_space ps
  end.

End Str.

(** ** Articles *)

(** The keys of an article dictionary that the core reads or writes. *)
Record Article := mkArticle {
  title : option string;
  link : option string;
  source : option string;
  summary : option string;
  full_text : option string;
  extraction_successful : option bool;
  ai_summary : option string
}.

(** [article['ai_summary'] = s]. *)
Definition set_ai_summary (a : Article) (s : string) : Article :=
  {| title := title a; link := link a; source := source a;
     summary := summary a; full_text := full_text a;
     extraction_successful := extraction_successful a;
     ai_summary := Some s |}.

(** ** Similarity scores *)

(** A score is a float: a number or NaN.  Every ordered comparison with NaN
    is false. *)
Inductive score :=
  | SNaN
  | SNum (q : Q).

(** [similarity_score > similarity_threshold]. *)
Definition score_gt (s : score) (threshold : Q) : bool :=
  match s with
  | SNaN => false
  | SNum q => negb (Qle_bool q threshold)
  end.

(** The similarity matrix, read as [cosine_sim[i][j]]. *)
Definition matrix : Type := nat -> nat -> score.

(** [TfidfVectorizer(...).fit_transform(texts)] followed by
    [cosine_similarity]: scikit-learn, outside the repository. *)
Definition scorer : Type := list string -> result matrix.

(** ** deduplicator.py *)

Module Dedup.

(** An entry of [duplicate_pairs]. *)
Record DuplicatePair := mkDuplicatePair {
  article1_idx : nat;
  article2_idx : nat;
  similarity_score : score;
  article1_title : string;
  article2_title : string;
  article1_source : string;
  article2_source : string
}.

(** The ['stats'] dictionary of [find_duplicates]; ['error'] is present only
    on the exception path. *)
Record FindStats := mkFindStats {
  total_articles : nat;
  duplicate_pairs_found : nat;
  stats_articles_to_remove : nat;
  stats_error : option string
}.

Record FindResult := mkFindResult {
  duplicate_pairs : list DuplicatePair;
  articles_to_remove : gset nat;
  stats : FindStats
}.

(** Lines 44-52: the text handed to the vectoriser for one article. *)
Definition comparison_text (article : Article) : string :=
  let title := get (title article) "" in
  let full_text := get (full_text article) "" in
  let summary := get (ai_summary article) (get (summary article) "") in
  let text_content := if truthy full_text then full_text else summary in
  Str.lower (title ++ " " ++ title ++ " " ++ text_content).

(** Lines 41-53: [comparison_texts] after the loop. *)
Definition comparison_texts (articles : list Article) : list string :=
  map comparison_text articles.

(** [len(article.get('full_text', ''))]. *)
Definition content_length (article : Article) : nat :=
  String.length (get (full_text article) "").

(** The two accumulators of the double loop. *)
Definition loop_state : Type := (list DuplicatePair * gset nat)%type.

(** Lines 73-97: the body of the inner loop at the pair [(i, j)].  Both
    indices come from [range(len(articles))], so the lookups succeed. *)
Definition pair_step (articles : list Article) (cosine_sim : matrix)
    (similarity_threshold : Q) (i : nat) (st : loop_state) (j : nat) : loop_state :=
  let similarity_score := cosine_sim i j in
  if score_gt similarity_score similarity_threshold then
    match articles !! i, articles !! j with
    | Some article1, Some article2 =>
        let pairs :=
          (st.1 ++ [ {| article1_idx := i; article2_idx := j;
                       similarity_score := similarity_score;
                       article1_title := get (title article1) "Unknown";
                       article2_title := get (title article2) "Unknown";
                       article1_source := get (source article1) "Unknown";
                       article2_source := get (source article2) "Unknown" |} ])%list in
        let content1_length := content_length article1 in
        let content2_length := content_length article2 in
        if (content2_length <=? content1_length)%nat
        then (pairs, {[ j ]} ∪ st.2)
        else (pairs, {[ i ]} ∪ st.2)
    | _, _ => st
    end
  else st.

(** Line 72: [for j in range(i + 1, len(articles))]. *)
Definition inner_loop (articles : list Article) (cosine_sim : matrix)
    (similarity_threshold : Q) (st : loop_state) (i : nat) : loop_state :=
  foldl (pair_step articles cosine_sim similarity_threshold i) st
        (seq (S i) (length articles - S i)).

(** Line 71: [for i in range(len(articles))]. *)
Definition outer_loop (articles : list Article) (cosine_sim : matrix)
    (similarity_threshold : Q) : loop_state :=
  foldl (inner_loop articles cosine_sim similarity_threshold) ([], ∅)
        (seq 0 (length articles)).

(** [find_duplicates(articles, similarity_threshold)].  The [try] block
    can fail only inside scikit-learn; the [except] branch is the [inl]
    case. *)
Definition find_duplicates (tfidf_cosine : scorer) (articles : list Article)
    (similarity_threshold : Q) : FindResult :=
  if (length articles <? 2)%nat then
    {| duplicate_pairs := [];
       articles_to_remove := ∅;
       stats := {| total_articles := length articles;
                   duplicate_pairs_found := 0;
                   stats_articles_to_remove := 0;
                   stats_error := None |} |}
  else
    match tfidf_cosine (comparison_texts articles) with
    | inr cosine_sim =>
        let st := outer_loop articles cosine_sim similarity_threshold in
        {| duplicate_pairs := st.1;
           articles_to_remove := st.2;
           stats := {| total_articles := length articles;
                       duplicate_pairs_found := length st.1;
                       stats_articles_to_remove := size st.2;
                       stats_error := None |} |}
    | inl e =>
        {| duplicate_pairs := [];
           articles_to_remove := ∅;
           stats := {| total_articles := length articles;
                       duplicate_pairs_found := 0;
                       stats_articles_to_remove := 0;
                       stats_error := Some e |} |}
    end.

(** An entry of [removed_articles]:
    [{**article, 'removal_reason': ..., 'original_index': i}]. *)
Record RemovedArticle := mkRemovedArticle {
  removed_article : Article;
  removal_reason : string;
  original_index : nat
}.

(** ['deduplication_stats'].  [duplicates_removed] is a Python integer
    difference; ['duplicate_pairs_found'] is absent on the early return. *)
Record DedupStats := mkDedupStats {
  original_count : nat;
  final_count : nat;
  duplicates_removed : Z;
  dedup_pairs_found : option nat
}.

(** The dictionary [remove_duplicates] returns; ['duplicate_pairs'] is
    absent on the early return. *)
Record DedupResult := mkDedupResult {
  articles : list Article;
  removed_articles : list RemovedArticle;
  deduplication_stats : DedupStats;
  dedup_duplicate_pairs : option (list DuplicatePair)
}.

(** Lines 160-168: one turn of [for i, article in enumerate(articles)]. *)
Definition split_step (articles_to_remove : gset nat)
    (acc : list Article * list RemovedArticle) (ia : nat * Article)
    : list Article * list RemovedArticle :=
  let '(i, article) := ia in
  if bool_decide (i ∈ articles_to_remove) then
    (acc.1, (acc.2 ++ [ {| removed_article := article;
                           removal_reason := "duplicate_content";
                           original_index := i |} ])%list)
  else
    ((acc.1 ++ [article])%list, acc.2).

(** [enumerate(articles)]. *)
Definition enumerate (articles : list Article) : list (nat * Article) :=
  zip (seq 0 (length articles)) articles.

(** [remove_duplicates(articles, similarity_threshold)]. *)
Definition remove_duplicates (tfidf_cosine : scorer) (articles : list Article)
    (similarity_threshold : Q) : DedupResult :=
  match articles with
  | [] =>
      {| articles := [];
         removed_articles := [];
         deduplication_stats := {| original_count := 0; final_count := 0;
                                   duplicates_removed := 0;
                                   dedup_pairs_found := None |};
         dedup_duplicate_pairs := None |}
  | _ :: _ =>
      let original_count := length articles in
      let duplicate_info := find_duplicates tfidf_cosine articles similarity_threshold in
      let articles_to_remove := articles_to_remove duplicate_info in
      let acc := foldl (split_step articles_to_remove) ([], []) (enumerate articles) in
      let deduplicated_articles := acc.1 in
      let removed_articles := acc.2 in
      let final_count := length deduplicated_articles in
      let duplicates_removed := (Z.of_nat original_count - Z.of_nat final_count)%Z in
      {| articles := deduplicated_articles;
         removed_articles := removed_articles;
         deduplication_stats :=
           {| original_count := original_count;
              final_count := final_count;
              duplicates_removed := duplicates_removed;
              dedup_pairs_found := Some (length (duplicate_pairs duplicate_info)) |};
         dedup_duplicate_pairs := Some (duplicate_pairs duplicate_info) |}
  end.

End Dedup.

(** ** ai_summarizer.py *)

Module Summarizer.

(** The suffix [_fallback_summary] appends (line 152). *)
Definition fallback_indicator : string :=
  " [Extractive summary - AI summarization unavailable]".

(** Lines 141-145: the loop over [sentences[:5]], with its [break]. *)
Fixpoint take_sentences (char_count : nat) (sentences : list string) : list string :=
  match sentences with
  | [] => []
  | sentence :: rest =>
      if (200 <? char_count + String.length sentence)%nat then []
      else Str.strip sentence
             :: take_sentences (char_count + String.length sentence) rest
  end.

(** [AISummarizer._fallback_summary(text)].  On a string no statement of
    the [try] block raises, so the [except] branch is not reached. *)
Definition _fallback_summary (text : string) : string :=
  let sentences := Str.split_dot_space text in
  let summary_parts := take_sentences 0 (take 5 sentences) in
  let fallback_summary := Str.join_dot_space summary_parts in
  let fallback_summary :=
    if Str.endswith_dot fallback_summary then fallback_summary
    else fallback_summary ++ "." in
  fallback_summary ++ fallback_indicator.

(** An [AISummarizer] instance: whether [_initialize_client] found a key,
    and the chat-completion request of [summarize] (lines 62-88 up to, not
    including, the final [.strip()]): the model's text or an exception. *)
Record AISummarizer := mkAISummarizer {
  api_available : bool;
  chat_completion : string -> result string
}.

(** [AISummarizer.summarize(text)]. *)
Definition summarize (self : AISummarizer) (text : string) : string :=
  if negb (api_available self) then _fallback_summary text
  else
    match chat_completion self text with
    | inr content => Str.strip content
    | inl _ => _fallback_summary text
    end.

(** Lines 333-340: the body of the loop of [process_article_summaries]. *)
Definition summarize_article (summarizer : AISummarizer) (article : Article) : Article :=
  let full_text := get (full_text article) "" in
  let summary :=
    if truthy full_text then summarize summarizer full_text
    else get (summary article) "No content available for summarization" in
  set_ai_summary article summary.

(** [process_article_summaries(articles)]; the summariser it constructs is
    passed in. *)
Definition process_article_summaries (summarizer : AISummarizer)
    (articles : list Article) : list Article :=
  map (summarize_article summarizer) articles.

End Summarizer.

(** ** news_pipeline.py *)

Module Pipeline.

(** [self.stats].  The three clock readings ([start_time], [end_time],
    [processing_duration]) are left out. *)
Record Stats := mkStats {
  articles_fetched : nat;
  articles_with_content : nat;
  articles_after_deduplication : nat;
  duplicates_removed : Z;
  ai_summaries_generated : nat;
  podcast_created : bool;
  telegram_sent : bool;
  errors : list string
}.

(** ['cloud_storage'] inside a podcast result. *)
Record CloudResult := mkCloudResult {
  cloud_success : bool;
  public_url : option string;
  cloud_filename : option string
}.

(** What [generate_podcast] returns when it returns a dictionary; an absent
    ['success'] reads as false. *)
Record PodcastResult := mkPodcastResult {
  success : bool;
  local_file : option string;
  duration_minutes : option Q;
  file_size_mb : option Q;
  cloud_storage : option CloudResult
}.

(** The delivery report; absent flags read as false. *)
Record TelegramResult := mkTelegramResult {
  podcast_sent : bool;
  text_sent : bool;
  primary_method : option string;
  telegram_error : option string
}.

(** ['podcast'] in the final result; [{}] is the record of [None]s. *)
Record PodcastInfo := mkPodcastInfo {
  info_local_file : option string;
  info_duration_minutes : option Q;
  info_file_size_mb : option Q;
  info_cloud_url : option string;
  info_cloud_filename : option string
}.

(** The dictionary [run_daily_pipeline] returns.  [_finish_with_error]
    sets ['status'], ['error'] and ['statistics'] only. *)
Record RunResult := mkRunResult {
  status : string;
  error : option string;
  articles_processed : option nat;
  meta_summary : option string;
  podcast : option PodcastInfo;
  telegram_result : option TelegramResult;
  statistics : Stats
}.

(** The configuration and the collaborators of one run. *)
Record Env := mkEnv {
  (** [fetch_all_sources(config.load_rss_sources())] *)
  fetch_all_sources : result (list Article);
  extract_content_batch : list Article -> result (list Article);
  DUPLICATE_THRESHOLD : Q;
  tfidf_cosine : scorer;
  summarizer : Summarizer.AISummarizer;
  (** [AISummarizer().generate_meta_summary(pd.DataFrame(articles), 'ai_summary')] *)
  generate_meta_summary : list Article -> result string;
  (** [datetime.now().strftime('%B %d, %Y')] *)
  today : string;
  generate_podcast : string -> result (option PodcastResult);
  (** [send_daily_podcast(local_file, meta_summary)] *)
  send_daily_podcast : string -> string -> result TelegramResult;
  (** [TelegramSender().send_text_summary_sync(meta_summary)['success']] *)
  send_text_summary_sync : string -> result bool
}.

(** The stages, in the order the orchestrator runs them. *)
Inductive Stage :=
  | Fetch | Extract | Deduplicate | Summarize | MetaSummarize | Synthesize | Deliver.

(** A [NewsProcessor]: its statistics, and the stages entered so far (each
    stage method logs its entry as its first statement). *)
Record Processor := mkProcessor {
  stats : Stats;
  attempted : list Stage
}.

(** Methods read and write the processor. *)
Definition M (A : Type) : Type := Processor -> A * Processor.

#[local] Instance M_ret : MRet M := fun A a p => (a, p).

#[local] Instance M_bind : MBind M :=
  fun A B k m p => let '(a, p') := m p in k a p'.

Definition enter (s : Stage) : M unit :=
  fun p => (tt, {| stats := stats p; attempted := (attempted p ++ [s])%list |}).

(** Reading [self.stats]. *)
Definition get_stats : M Stats := fun p => (stats p, p).

Definition update (f : Stats -> Stats) : M unit :=
  fun p => (tt, {| stats := f (stats p); attempted := attempted p |}).

Definition set_articles_fetched (n : nat) (s : Stats) : Stats :=
  {| articles_fetched := n;
     articles_with_content := articles_with_content s;
     articles_after_deduplication := articles_after_deduplication s;
     duplicates_removed := duplicates_removed s;
     ai_summaries_generated := ai_summaries_generated s;
     podcast_created := podcast_created s;
     telegram_sent := telegram_sent s;
     errors := errors s |}.

Definition set_articles_with_content (n : nat) (s : Stats) : Stats :=
  {| articles_fetched := articles_fetched s;
     articles_with_content := n;
     articles_after_deduplication := articles_after_deduplication s;
     duplicates_removed := duplicates_removed s;
     ai_summaries_generated := ai_summaries_generated s;
     podcast_created := podcast_created s;
     telegram_sent := telegram_sent s;
     errors := errors s |}.

Definition set_deduplication (n : nat) (removed : Z) (s : Stats) : Stats :=
  {| articles_fetched := articles_fetched s;
     articles_with_content := articles_with_content s;
     articles_after_deduplication := n;
     duplicates_removed := removed;
     ai_summaries_generated := ai_summaries_generated s;
     podcast_created := podcast_created s;
     telegram_sent := telegram_sent s;
     errors := errors s |}.

Definition set_ai_summaries_generated (n : nat) (s : Stats) : Stats :=
  {| articles_fetched := articles_fetched s;
     articles_with_content := articles_with_content s;
     articles_after_deduplication := articles_after_deduplication s;
     duplicates_removed := duplicates_removed s;
     ai_summaries_generated := n;
     podcast_created := podcast_created s;
     telegram_sent := telegram_sent s;
     errors := errors s |}.

Definition set_podcast_created (s : Stats) : Stats :=
  {| articles_fetched := articles_fetched s;
     articles_with_content := articles_with_content s;
     articles_after_deduplication := articles_after_deduplication s;
     duplicates_removed := duplicates_removed s;
     ai_summaries_generated := ai_summaries_generated s;
     podcast_created := true;
     telegram_sent := telegram_sent s;
     errors := errors s |}.

Definition set_telegram_sent (s : Stats) : Stats :=
  {| articles_fetched := articles_fetched s;
     articles_with_content := articles_with_content s;
     articles_after_deduplication := articles_after_deduplication s;
     duplicates_removed := duplicates_removed s;
     ai_summaries_generated := ai_summaries_generated s;
     podcast_created := podcast_created s;
     telegram_sent := true;
     errors := errors s |}.

(** [self.stats['errors'].append(msg)]. *)
Definition append_error (msg : string) (s : Stats) : Stats :=
  {| articles_fetched := articles_fetched s;
     articles_with_content := articles_with_content s;
     articles_after_deduplication := articles_after_deduplication s;
     duplicates_removed := duplicates_removed s;
     ai_summaries_generated := ai_summaries_generated s;
     podcast_created := podcast_created s;
     telegram_sent := telegram_sent s;
     errors := (errors s ++ [msg])%list |}.

(** The test of lines 153-154: the summary is not blank and does not carry
    the fallback indicator. *)
Definition is_ai_summary (a : Article) : bool :=
  truthy (Str.strip (get (ai_summary a) "")) &&
  negb (Str.contains "AI summarization unavailable" (get (ai_summary a) "")).

Module NewsProcessor.

(** [NewsProcessor.__init__]. *)
Definition init : Processor :=
  {| stats := {| articles_fetched := 0;
                 articles_with_content := 0;
                 articles_after_deduplication := 0;
                 duplicates_removed := 0;
                 ai_summaries_generated := 0;
                 podcast_created := false;
                 telegram_sent := false;
                 errors := [] |};
     attempted := [] |}.

Definition _fetch_articles (env : Env) : M (list Article) :=
  enter Fetch;;
  match fetch_all_sources env with
  | inr articles =>
      update (set_articles_fetched (length articles));;
      mret articles
  | inl e =>
      update (append_error ("RSS fetching failed: " ++ e));;
      mret []
  end.

Definition _extract_content (env : Env) (articles : list Article) : M (list Article) :=
  enter Extract;;
  match extract_content_batch env articles with
  | inr articles_with_content =>
      let successful :=
        length (List.filter (fun a => default false (extraction_successful a))
                            articles_with_content) in
      update (set_articles_with_content successful);;
      mret articles_with_content
  | inl e =>
      update (append_error ("Content extraction failed: " ++ e));;
      mret articles
  end.

(** [remove_duplicates] does not raise on a list of articles, so the
    [except] branch of [_deduplicate_articles] is not reached. *)
Definition _deduplicate_articles (env : Env) (articles : list Article)
    : M Dedup.DedupResult :=
  enter Deduplicate;;
  let dedup_result :=
    Dedup.remove_duplicates (tfidf_cosine env) articles (DUPLICATE_THRESHOLD env) in
  update (set_deduplication
            (length (Dedup.articles dedup_result))
            (Dedup.duplicates_removed (Dedup.deduplication_stats dedup_result)));;
  mret dedup_result.

(** [process_article_summaries] does not raise on a list of articles
    either. *)
Definition _generate_summaries (env : Env) (articles : list Article)
    : M (list Article) :=
  enter Summarize;;
  let articles_with_summaries :=
    Summarizer.process_article_summaries (summarizer env) articles in
  let ai_summaries := length (List.filter is_ai_summary articles_with_summaries) in
  update (set_ai_summaries_generated ai_summaries);;
  mret articles_with_summaries.

Definition _create_meta_summary (env : Env) (articles : list Article) : M string :=
  enter MetaSummarize;;
  match generate_meta_summary env articles with
  | inr meta_summary => mret meta_summary
  | inl e =>
      update (append_error ("Meta-summary creation failed: " ++ e));;
      mret ("Daily news summary for " ++ today env ++ " - "
              ++ pretty (length articles) ++ " articles processed.")
  end.

(** Lines 209-223.  The two log lines index ['local_file'] and
    ['public_url']; a missing key raises [KeyError] into the handler, after
    [podcast_created] has been set. *)
Definition _generate_podcast (env : Env) (meta_summary : string)
    : M (option PodcastResult) :=
  enter Synthesize;;
  match generate_podcast env meta_summary with
  | inr podcast_result =>
      match podcast_result with
      | Some pr =>
          if success pr then
            update set_podcast_created;;
            match local_file pr with
            | Some _ =>
                match cloud_storage pr with
                | Some cloud_result =>
                    if cloud_success cloud_result then
                      match public_url cloud_result with
                      | Some _ => mret podcast_result
                      | None =>
                          update (append_error "Podcast generation failed: 'public_url'");;
                          mret None
                      end
                    else mret podcast_result
                | None => mret podcast_result
                end
            | None =>
                update (append_error "Podcast generation failed: 'local_file'");;
                mret None
            end
          else
            update (append_error "Podcast generation failed");;
            mret podcast_result
      | None =>
          update (append_error "Podcast generation failed");;
          mret podcast_result
      end
  | inl e =>
      update (append_error ("Podcast generation failed: " ++ e));;
      mret None
  end.

(** The dictionary the handler of [_send_telegram] returns. *)
Definition telegram_failed (e : string) : TelegramResult :=
  {| podcast_sent := false; text_sent := false;
     primary_method := Some "failed"; telegram_error := Some e |}.

(** Lines 266-272. *)
Definition record_delivery (telegram_result : TelegramResult) : M TelegramResult :=
  (if podcast_sent telegram_result || text_sent telegram_result
   then update set_telegram_sent
   else mret tt);;
  mret telegram_result.

(** The handler of [_send_telegram], lines 274-283. *)
Definition delivery_exception (e : string) : M TelegramResult :=
  update (append_error ("Telegram sending failed: " ++ e));;
  mret (telegram_failed e).

Definition _send_telegram (env : Env) (podcast_result : option PodcastResult)
    (meta_summary : string) : M TelegramResult :=
  enter Deliver;;
  match podcast_result with
  | Some (mkPodcastResult true file _ _ cloud) =>
      let missing_url :=
        match cloud with
        | Some cloud_result =>
            cloud_success cloud_result && negb (bool_decide (is_Some (public_url cloud_result)))
        | None => false
        end in
      if missing_url then delivery_exception "'public_url'"
      else
        match file with
        | Some f =>
            match send_daily_podcast env f meta_summary with
            | inr telegram_result => record_delivery telegram_result
            | inl e => delivery_exception e
            end
        | None => delivery_exception "'local_file'"
        end
  | _ =>
      match send_text_summary_sync env meta_summary with
      | inr sent =>
          record_delivery
            {| podcast_sent := false;
               text_sent := sent;
               primary_method := Some (if sent then "text" else "failed");
               telegram_error := None |}
      | inl e => delivery_exception e
      end
  end.

Definition _finish_successfully (articles : list Article) (meta_summary : string)
    (podcast_result : option PodcastResult) (telegram_result : TelegramResult)
    : M RunResult :=
  self_stats ← get_stats;
  let podcast_info :=
    match podcast_result with
    | Some (mkPodcastResult true file minutes mb cloud) =>
        let with_cloud :=
          match cloud with
          | Some cloud_result => cloud_success cloud_result
          | None => false
          end in
        {| info_local_file := file;
           info_duration_minutes := minutes;
           info_file_size_mb := mb;
           info_cloud_url := if with_cloud then cloud ≫= public_url else None;
           info_cloud_filename := if with_cloud then cloud ≫= cloud_filename else None |}
    | _ =>
        {| info_local_file := None; info_duration_minutes := None;
           info_file_size_mb := None; info_cloud_url := None;
           info_cloud_filename := None |}
    end in
  mret {| status := "success";
          error := None;
          articles_processed := Some (length articles);
          meta_summary := Some meta_summary;
          podcast := Some podcast_info;
          telegram_result := Some telegram_result;
          statistics := self_stats |}.

Definition _finish_with_error (error_message : string) : M RunResult :=
  update (append_error error_message);;
  self_stats ← get_stats;
  mret {| status := "error";
          error := Some error_message;
          articles_processed := None;
          meta_summary := None;
          podcast := None;
          telegram_result := None;
          statistics := self_stats |}.

(** [NewsProcessor.run_daily_pipeline].  Every stage method handles its own
    exceptions, so the outer handler (lines 80-82) is not reached. *)
Definition run_daily_pipeline (env : Env) : M RunResult :=
  articles ← _fetch_articles env;
  match articles with
  | [] => _finish_with_error "No articles fetched from RSS feeds"
  | _ :: _ =>
      articles ← _extract_content env articles;
      dedup_result ← _deduplicate_articles env articles;
      let articles := Dedup.articles dedup_result in
      match articles with
      | [] => _finish_with_error "No articles remaining after deduplication"
      | _ :: _ =>
          articles ← _generate_summaries env articles;
          meta_summary ← _create_meta_summary env articles;
          podcast_result ← _generate_podcast env meta_summary;
          telegram_result ← _send_telegram env podcast_result meta_summary;
          _finish_successfully articles meta_summary podcast_result telegram_result
      end
  end.

End NewsProcessor.

(** The module-level [run_daily_pipeline(config)]: a fresh processor, run
    once.  The second component is the processor after the run. *)
Definition run_daily_pipeline (env : Env) : RunResult * Processor :=
  NewsProcessor.run_daily_pipeline env NewsProcessor.init.

End Pipeline.

(** ** Notions used to state the properties *)

Module Spec.

Import Dedup.

(** The index [pair_step] adds to the removal set at a pair above the
    threshold: the second article unless it is strictly longer. *)
Definition loser (articles : list Article) (i j : nat) : option nat :=
  match articles !! i, articles !! j with
  | Some article1, Some article2 =>
      Some (if (content_length article2 <=? content_length article1)%nat then j else i)
  | _, _ => None
  end.

(** The entry [split_step] appends to [removed_articles]. *)
Definition removed_entry (ia : nat * Article) : RemovedArticle :=
  {| removed_article := ia.2; removal_reason := "duplicate_content";
     original_index := ia.1 |}.




(** [m] is the lowest index among the articles of maximal
    [len(full_text)], and [a] the article there. *)
Definition first_longest (articles : list Article) (m : nat) (a : Article) : Prop :=
  articles !! m = Some a /\
  (forall k b, articles !! k = Some b -> content_length b <= content_length a) /\
  (forall k b, k < m -> articles !! k = Some b -> content_length b < content_length a).

(** Primary summarisation of an article was attempted and failed: the
    article has text and [summarize] took the extractive fallback. *)
Definition primary_failed (s : Summarizer.AISummarizer) (a : Article) : bool :=
  let text := get (full_text a) "" in
  truthy text &&
  (negb (Summarizer.api_available s) ||
   match Summarizer.chat_completion s text with
   | inl _ => true
   | inr _ => false
   end).


(** The batch after the fetch stage of a fresh run. *)
Definition fetched (env : Pipeline.Env) : list Article :=
  (Pipeline.NewsProcessor._fetch_articles env Pipeline.NewsProcessor.init).1.

(** The batch after the deduplication stage of a fresh run that got past
    the fetch stage. *)
Definition deduplicated (env : Pipeline.Env) : list Article :=
  let '(articles, p1) :=
    Pipeline.NewsProcessor._fetch_articles env Pipeline.NewsProcessor.init in
  let '(articles, p2) := Pipeline.NewsProcessor._extract_content env articles p1 in
  let '(dedup_result, _) := Pipeline.NewsProcessor._deduplicate_articles env articles p2 in
  Dedup.articles dedup_result.

(** The pair [(i, j)] is above the threshold and [k] loses it. *)
Definition marks (articles : list Article) (cosine_sim : matrix) (threshold : Q)
    (i j k : nat) : Prop :=
  score_gt (cosine_sim i j) threshold = true /\ loser articles i j = Some k.

(** What a stage leaves behind: its entry in [attempted], and the delivery
    flag as it found it. *)
Definition passes {A} (s : Pipeline.Stage) (m : Pipeline.M A) : Prop :=
  forall p,
    Pipeline.attempted (m p).2 = (Pipeline.attempted p ++ [s])%list /\
    Pipeline.telegram_sent (Pipeline.stats (m p).2)
    = Pipeline.telegram_sent (Pipeline.stats p).

End Spec.

(** ** Sample data *)

Module Sample.

Definition article (t : string) (text : string) : Article :=
  {| title := Some t; link := None; source := Some "feed"; summary := Some "";
     full_text := Some text; extraction_successful := Some (truthy text);
     ai_summary := None |}.

(** A stand-in for scikit-learn: it raises on a batch with no token at all,
    and otherwise scores equal texts 1 and different texts 0. *)
Definition exact_scorer : scorer :=
  fun texts =>
    if forallb (fun t => negb (truthy (Str.strip t))) texts
    then inl "empty vocabulary; perhaps the documents only contain stop words"
    else inr (fun i j =>
                match texts !! i, texts !! j with
                | Some a, Some b => if String.eqb a b then SNum 1 else SNum 0
                | _, _ => SNum 0
                end).

(** A scorer that declares every pair identical. *)
Definition all_similar : scorer := fun _ => inr (fun _ _ => SNum 1).


Definition long_article : Article :=
  {| title := Some "Rates"; link := None; source := Some "a"; summary := None;
     full_text := Some "Rates rise again today"; extraction_successful := Some true;
     ai_summary := None |}.

Definition short_article : Article :=
  {| title := Some "Rates"; link := None; source := Some "b"; summary := None;
     full_text := Some "Rates rise"; extraction_successful := Some true;
     ai_summary := None |}.

Definition blank_article : Article :=
  {| title := None; link := None; source := None; summary := Some "";
     full_text := Some ""; extraction_successful := Some false;
     ai_summary := None |}.

(** A summariser without an API key. *)
Definition offline : Summarizer.AISummarizer :=
  {| Summarizer.api_available := false;
     Summarizer.chat_completion := fun _ => inl "no client" |}.

(** A summariser whose model answers every request with the same
    sentence. *)
Definition answering (reply : string) : Summarizer.AISummarizer :=
  {| Summarizer.api_available := true;
     Summarizer.chat_completion := fun _ => inr reply |}.

(** An environment: what the feeds return, what extraction returns, the
    summariser, and whether the text message gets through.  No podcast is
    produced, so delivery takes the text path. *)
Definition env (fetched : result (list Article))
    (extract : list Article -> result (list Article))
    (s : Summarizer.AISummarizer) (text_delivery : result bool) : Pipeline.Env :=
  {| Pipeline.fetch_all_sources := fetched;
     Pipeline.extract_content_batch := extract;
     Pipeline.DUPLICATE_THRESHOLD := 8 # 10;
     Pipeline.tfidf_cosine := exact_scorer;
     Pipeline.summarizer := s;
     Pipeline.generate_meta_summary := fun _ => inr "Today in the news.";
     Pipeline.today := "November 03, 2026";
     Pipeline.generate_podcast := fun _ => inr None;
     Pipeline.send_daily_podcast := fun _ _ => inl "no chat configured";
     Pipeline.send_text_summary_sync := fun _ => text_delivery |}.



End Sample.

(** ** Further notions *)

Module Notions.

Import Dedup.

(** The pairs the double loop of [find_duplicates] visits, in the order it
    visits them: [(i, j)] with [i < j < n], row by row. *)
Definition index_pairs (n : nat) : list (nat * nat) :=
  i ← seq 0 n; pair i <$> seq (S i) (n - S i).

(** The entry [find_duplicates] records for the pair [(i, j)]. *)
Definition pair_entry (articles : list Article) (cosine_sim : matrix)
    (ij : nat * nat) : DuplicatePair :=
  {| article1_idx := ij.1;
     article2_idx := ij.2;
     similarity_score := cosine_sim ij.1 ij.2;
     article1_title := default "Unknown" (articles !! ij.1 ≫= title);
     article2_title := default "Unknown" (articles !! ij.2 ≫= title);
     article1_source := default "Unknown" (articles !! ij.1 ≫= source);
     article2_source := default "Unknown" (articles !! ij.2 ≫= source) |}.

(** The pair [(i, j)] is above the threshold. *)
Definition above (cosine_sim : matrix) (threshold : Q) (ij : nat * nat) : Prop :=
  score_gt (cosine_sim ij.1 ij.2) threshold = true.


End Notions.

(** ** main.py *)

Module Main.

(** The JSON body of the handler's own error response (lines 68-75; the
    timestamp is left out). *)
Record ErrorBody := mkErrorBody {
  body_status : string;
  body_message : string;
  body_articles_processed : nat;
  body_podcast_generated : bool;
  body_telegram_sent : bool
}.

(** What [process_daily_news] returns: a JSON body and an HTTP status
    code. *)
Inductive Body :=
  | RunBody (r : Pipeline.RunResult)
  | FailureBody (b : ErrorBody).

(** [process_daily_news()].  [config] is what [get_config()] gives, or the
    exception raised while importing or building it. *)
Definition process_daily_news (config : result Pipeline.Env) : Body * nat :=
  match config with
  | inr env =>
      let result := (Pipeline.run_daily_pipeline env).1 in
      let status_code :=
        if String.eqb (Pipeline.status result) "success" then 200 else 500 in
      (RunBody result, status_code)
  | inl e =>
      (FailureBody {| body_status := "error";
                      body_message := "❌ News processing failed: " ++ e;
                      body_articles_processed := 0;
                      body_podcast_generated := false;
                      body_telegram_sent := false |}, 500)
  end.

End Main.

(** ** rss_fetcher.py *)

Module Rss.

(** An entry of a parsed feed, with the keys [fetch_rss_feed] reads. *)
Record Entry := mkEntry {
  entry_title : option string;
  entry_link : option string;
  entry_published : option string;
  entry_summary : option string
}.

(** A value of the sources configuration; [max_articles], when present,
    is an integer. *)
Record SourceInfo := mkSourceInfo {
  rss : option string;
  enabled : option bool;
  max_articles : option Z;
  categories : option (list string)
}.

(** [feedparser.parse(url).entries], or the exception raised. *)
Definition feedparser : Type := string -> result (list Entry).

(** The slice [l[:m]] for a Python integer [m]. *)
Definition slice_to {A} (m : Z) (l : list A) : list A :=
  if (0 <=? m)%Z then take (Z.to_nat m) l
  else take (length l - Z.to_nat (- m)) l.

(** Lines 37-44: the dictionary built for one entry (['published'] and
    ['categories'] are carried along and read by no later stage). *)
Definition news_item (source_name : string) (entry : Entry) : Article :=
  {| title := Some (get (entry_title entry) "");
     link := Some (get (entry_link entry) "");
     source := Some source_name;
     summary := Some (get (entry_summary entry) "");
     full_text := None;
     extraction_successful := None;
     ai_summary := None |}.

(** [fetch_rss_feed(source_name, source_info)]: a missing ['rss'] key and a
    failing parser both end in the handler, which returns [[]]. *)
Definition fetch_rss_feed (parse : feedparser) (source_name : string)
    (source_info : SourceInfo) : list Article :=
  match rss source_info with
  | None => []
  | Some url =>
      match parse url with
      | inl _ => []
      | inr entries =>
          let max_articles := default 50%Z (max_articles source_info) in
          map (news_item source_name) (slice_to max_articles entries)
      end
  end.

(** One turn of the loop of [fetch_all_sources]. *)
Definition fetch_source (parse : feedparser) (all_articles : list Article)
    (item : string * SourceInfo) : list Article :=
  if default true (enabled item.2) then
    (all_articles ++ fetch_rss_feed parse item.1 item.2)%list
  else all_articles.

(** [fetch_all_sources(sources_config)]; the dictionary is the list of its
    items in insertion order. *)
Definition fetch_all_sources (parse : feedparser)
    (sources_config : list (string * SourceInfo)) : list Article :=
  foldl (fetch_source parse) [] sources_config.

End Rss.

(** ** content_extractor.py *)

Module Extractor.

(** [Article(url)], [download()], [parse()] and [article.text] of
    newspaper3k: the text, or the exception raised. *)
Definition newspaper : Type := string -> result string.

(** The keys of [content_data] that later stages read. *)
Record ContentData := mkContentData {
  content_full_text : string;
  content_extraction_successful : bool
}.

(** [extract_article_content(url)]. *)
Definition extract_article_content (download : newspaper) (url : string) : ContentData :=
  match download url with
  | inr text =>
      {| content_full_text := text; content_extraction_successful := true |}
  | inl _ =>
      {| content_full_text := ""; content_extraction_successful := false |}
  end.

(** [{**article, **content_data}]. *)
Definition enrich (article : Article) (content_data : ContentData) : Article :=
  {| title := title article; link := link article; source := source article;
     summary := summary article;
     full_text := Some (content_full_text content_data);
     extraction_successful := Some (content_extraction_successful content_data);
     ai_summary := ai_summary article |}.

(** Lines 70-81: the loop, with [enriched_articles] as accumulator.
    [article['link']] raises [KeyError] out of the function when the key is
    absent. *)
Fixpoint batch_loop (download : newspaper) (enriched_articles : list Article)
    (articles : list Article) : result (list Article) :=
  match articles with
  | [] => inr enriched_articles
  | article :: rest =>
      match link article with
      | None => inl "'link'"
      | Some url =>
          let content_data := extract_article_content download url in
          batch_loop download
            (enriched_articles ++ [enrich article content_data])%list rest
      end
  end.

(** [extract_content_batch(articles)]. *)
Definition extract_content_batch (download : newspaper) (articles : list Article)
    : result (list Article) :=
  batch_loop download [] articles.

End Extractor.

(** ** telegram_sender.py *)

Module Telegram.

(** A [TelegramSender]: whether [_initialize_bot] succeeded, and the two
    coroutines run to completion by the synchronous wrappers: the
    ['success'] of the dictionary they return, or the exception (a timeout
    included) that ends the wrapper's [try]. *)
Record TelegramSender := mkTelegramSender {
  telegram_available : bool;
  send_podcast : string -> result bool;
  send_text_summary : string -> result bool
}.

(** ['success'] of [send_podcast_sync(podcast_file)]. *)
Definition send_podcast_sync (self : TelegramSender) (podcast_file : string) : bool :=
  if negb (telegram_available self) then false
  else
    match send_podcast self podcast_file with
    | inr ok => ok
    | inl _ => false
    end.

(** ['success'] of [send_text_summary_sync(summary)]. *)
Definition send_text_summary_sync (self : TelegramSender) (summary : string) : bool :=
  if negb (telegram_available self) then false
  else
    match send_text_summary self summary with
    | inr ok => ok
    | inl _ => false
    end.

(** [send_daily_podcast(podcast_file, summary_text)]; [summary_text] is
    [None] when the argument is left out. *)
Definition send_daily_podcast (sender : TelegramSender) (podcast_file : string)
    (summary_text : option string) : Pipeline.TelegramResult :=
  let podcast_result := send_podcast_sync sender podcast_file in
  if podcast_result then
    {| Pipeline.podcast_sent := true;
       Pipeline.text_sent := false;
       Pipeline.primary_method := Some "audio";
       Pipeline.telegram_error := None |}
  else if truthy (default "" summary_text) then
    let text_result := send_text_summary_sync sender (default "" summary_text) in
    {| Pipeline.podcast_sent := false;
       Pipeline.text_sent := text_result;
       Pipeline.primary_method := Some (if text_result then "text" else "failed");
       Pipeline.telegram_error := None |}
  else
    {| Pipeline.podcast_sent := false;
       Pipeline.text_sent := false;
       Pipeline.primary_method := Some "failed";
       Pipeline.telegram_error := Some "All delivery methods failed or unavailable" |}.

End Telegram.

(** ** The collaborators put together *)

Module Wiring.

(** The environment of a run whose feeds, extraction and delivery are the
    functions of the repository, for a sources configuration that
    [load_rss_sources] returns as a dictionary of source dictionaries; the
    remaining collaborators are those of [base]. *)
Definition wire (base : Pipeline.Env) (parse : Rss.feedparser)
    (sources_config : list (string * Rss.SourceInfo))
    (download : Extractor.newspaper) (sender : Telegram.TelegramSender)
    : Pipeline.Env :=
  {| Pipeline.fetch_all_sources := inr (Rss.fetch_all_sources parse sources_config);
     Pipeline.extract_content_batch := Extractor.extract_content_batch download;
     Pipeline.DUPLICATE_THRESHOLD := Pipeline.DUPLICATE_THRESHOLD base;
     Pipeline.tfidf_cosine := Pipeline.tfidf_cosine base;
     Pipeline.summarizer := Pipeline.summarizer base;
     Pipeline.generate_meta_summary := Pipeline.generate_meta_summary base;
     Pipeline.today := Pipeline.today base;
     Pipeline.generate_podcast := Pipeline.generate_podcast base;
     Pipeline.send_daily_podcast :=
       fun file meta => inr (Telegram.send_daily_podcast sender file (Some meta));
     Pipeline.send_text_summary_sync :=
       fun meta => inr (Telegram.send_text_summary_sync sender meta) |}.

(** A feed with three entries, a feed that cannot be parsed, and a
    configuration that uses both. *)
Definition sample_feed : Rss.feedparser :=
  fun url =>
    if String.eqb url "https://example.org/feed" then
      inr [ {| Rss.entry_title := Some "Rates"; Rss.entry_link := Some "https://example.org/1";
               Rss.entry_published := None; Rss.entry_summary := Some "Rates rise." |};
            {| Rss.entry_title := Some "Rain"; Rss.entry_link := Some "https://example.org/2";
               Rss.entry_published := None; Rss.entry_summary := None |};
            {| Rss.entry_title := None; Rss.entry_link := None;
               Rss.entry_published := None; Rss.entry_summary := None |} ]
    else inl "connection refused".

Definition sample_sources : list (string * Rss.SourceInfo) :=
  [ ("example", {| Rss.rss := Some "https://example.org/feed"; Rss.enabled := None;
                   Rss.max_articles := Some 2%Z; Rss.categories := None |});
    ("broken", {| Rss.rss := Some "https://example.org/none"; Rss.enabled := Some true;
                  Rss.max_articles := None; Rss.categories := None |});
    ("off", {| Rss.rss := Some "https://example.org/feed"; Rss.enabled := Some false;
               Rss.max_articles := None; Rss.categories := None |}) ].

(** A site that serves the first article only. *)
Definition sample_site : Extractor.newspaper :=
  fun url =>
    if String.eqb url "https://example.org/1" then inr "Rates rise again today"
    else inl "404".

(** A sender without credentials. *)
Definition no_telegram : Telegram.TelegramSender :=
  {| Telegram.telegram_available := false;
     Telegram.send_podcast := fun _ => inr true;
     Telegram.send_text_summary := fun _ => inr true |}.

End Wiring.

(** ** Notions about fetching and extraction *)

Module FetchNotions.

Import Rss Extractor.

(** The limit a source puts on its contribution; nothing when it is
    disabled. *)
Definition cap (item : string * SourceInfo) : nat :=
  if default true (enabled item.2) then
    Z.to_nat (default 50%Z (max_articles item.2))
  else 0.

(** A source that is switched off, has no feed address, or whose feed
    cannot be parsed. *)
Definition skipped (parse : feedparser) (info : SourceInfo) : Prop :=
  enabled info = Some false \/ rss info = None \/
  exists url e, rss info = Some url /\ parse url = inl e.

(** Whether the page behind the link of an article is extracted. *)
Definition downloads (download : newspaper) (a : Article) : bool :=
  match link a with
  | Some url =>
      match download url with
      | inr _ => true
      | inl _ => false
      end
  | None => false
  end.

End FetchNotions.

(** ** More string operations *)

Module StrMore.

(** [sep.join(parts)]. *)
Fixpoint join (sep : string) (parts : list string) : string :=
  match parts with
  | [] => ""
  | [p] => p
  | p :: ps => p ++ sep ++ join sep ps
  end.

(** [s.split(sep)] for a non-empty [sep], scanned from the left.  [cur] is
    the piece being read, reversed; [skip] counts the characters of a
    separator just found that are still to be passed over. *)
Fixpoint split_aux (sep : string) (skip : nat) (cur : string) (s : string)
    : list string :=
  match s with
  | EmptyString => [String.rev cur]
  | String c r =>
      match skip with
      | S k => split_aux sep k cur r
      | O =>
          if Str.startswith sep s then
            String.rev cur :: split_aux sep (String.length sep - 1) "" r
          else split_aux sep 0 (String c cur) r
      end
  end.

Definition split (sep : string) (s : string) : list string :=
  split_aux sep 0 "" s.

End StrMore.

(** ** ai_summarizer.py: the meta-summary *)

Module MetaSummary.

Import Summarizer.

(** What [row.get(summary_column, '')] gives for a row of the data frame: a
    string, or the missing value pandas puts where a dictionary lacked the
    key. *)
Inductive Cell :=
  | NaN
  | Text (s : string).

(** The column ['ai_summary'] of [pd.DataFrame(articles)], row by row:
    when no article has the key there is no such column and [row.get]
    gives its default. *)
Definition data_frame_column (articles : list Article) : list Cell :=
  if forallb (fun a => negb (bool_decide (is_Some (ai_summary a)))) articles then
    map (fun _ => Text "") articles
  else
    map (fun a => match ai_summary a with
                  | Some summary => Text summary
                  | None => NaN
                  end) articles.

(** Line 177: [summary and not summary.startswith('Summary generation
    failed')]. *)
Definition valid_summary (summary : string) : bool :=
  truthy summary && negb (Str.startswith "Summary generation failed" summary).

(** Lines 174-178: the loop over the rows.  A missing value is truthy and
    has no [startswith]: the [AttributeError] ends the loop. *)
Fixpoint collect_summaries (summaries : list string) (rows : list Cell)
    : result (list string) :=
  match rows with
  | [] => inr summaries
  | NaN :: _ => inl "'float' object has no attribute 'startswith'"
  | Text summary :: rest =>
      if valid_summary summary then
        collect_summaries (summaries ++ [summary])%list rest
      else collect_summaries summaries rest
  end.

Definition business_keywords : list string :=
  ["business"; "company"; "market"; "economic"; "financial"; "trade"].

Definition tech_keywords : list string :=
  ["technology"; "tech"; "digital"; "ai"; "artificial"; "software"; "startup"].

Definition politics_keywords : list string :=
  ["government"; "political"; "policy"; "election"; "minister"; "parliament"].

(** [any(keyword in all_text for keyword in keywords)]. *)
Definition any_in (keywords : list string) (all_text : string) : bool :=
  existsb (fun keyword => Str.contains keyword all_text) keywords.

(** Lines 282-288. *)
Definition find_themes (all_text : string) : list string :=
  ((if any_in business_keywords all_text then ["business and economics"] else [])
   ++ (if any_in tech_keywords all_text then ["technology"] else [])
   ++ (if any_in politics_keywords all_text then ["politics and governance"] else []))%list.

(** [summary.split('.')[0].strip()]. *)
Definition first_sentence (summary : string) : string :=
  Str.strip (default "" (head (StrMore.split "." summary))).

(** Lines 298-302, over [summaries[:3]]. *)
Fixpoint collect_highlights (summaries : list string) : list string :=
  match summaries with
  | [] => []
  | summary :: rest =>
      let first_sentence := first_sentence summary in
      if truthy first_sentence && (10 <? String.length first_sentence)%nat then
        first_sentence :: collect_highlights rest
      else collect_highlights rest
  end.

(** The closing line of a fallback meta-summary (line 307). *)
Definition fallback_meta_indicator : string :=
  "[Fallback meta-summary - AI summarization unavailable]".

(** [AISummarizer._fallback_meta_summary(summaries)].  On a list of strings
    no statement of the [try] block raises. *)
Definition _fallback_meta_summary (summaries : list string) : string :=
  let article_count := length summaries in
  let all_text := Str.lower (StrMore.join " " summaries) in
  let themes := find_themes all_text in
  let meta_summary := "Today's news covers " ++ pretty article_count ++ " key stories" in
  let meta_summary :=
    match themes with
    | [] => meta_summary
    | _ :: _ => meta_summary ++ " focusing on " ++ StrMore.join ", " themes
    end in
  let meta_summary :=
    meta_summary
    ++ ". Key developments include various updates across different sectors. " in
  let highlights := collect_highlights (take 3 summaries) in
  let meta_summary :=
    match highlights with
    | [] => meta_summary
    | _ :: _ =>
        meta_summary ++ "Major highlights: " ++ StrMore.join "; " highlights ++ ". "
    end in
  meta_summary ++ fallback_meta_indicator.

(** The user prompt of [_ai_meta_summarize] (lines 212-235): a string
    literal without the [f] prefix, so the braces stay as they are. *)
Definition meta_prompt : string :=
  " You are a podcast scriptwriter. Your task is to take the following article summaries and transform them into a single, engaging 6-minute news podcast script.

                    Guidelines:
                    - Audience: general listeners who want a clear, concise, and engaging news update.
                    - Length: aim for ~700 words (enough for ~5 minutes of spoken audio).
                    - Style: conversational but professional, like a news podcast host. Avoid jargon.
                    - Structure:
                    1. Opening greeting and quick overview of what’s coming up.
                    2. Group related stories into segments (e.g., world news, business, tech, science, culture).
                    3. Within each segment, smoothly transition between stories.
                    4. Add short connective phrases (“Meanwhile…”, “In other news…”, “On a lighter note…”).
                    5. End with a brief wrap‑up and a sign‑off.

                    - Do NOT repeat the summaries verbatim. Rewrite them into natural spoken language.
                    - Keep sentences varied in length for a natural rhythm when read aloud.
                    - Avoid filler words like “um” or “you know.”
                    - Make sure the script flows logically and feels like one continuous show.

                    Here are the article summaries to use:
                    {all_summaries}

                    Now, write the complete podcast script following the above rules.
                ".

(** Line 236. *)
Definition meta_system_prompt : string :=
  "You are a podcast scriptwriter. Write engaging, natural spoken scripts for a 10 to 20‑minute news podcast.".

(** The request of [_ai_meta_summarize] (lines 199-204 and 238-256) for a
    system prompt and a user prompt: the content of the first choice of
    the answer, or the exception raised on the way. *)
Definition completion : Type := string -> string -> result string.

(** The separator of lines 184 and 265: the source writes it with escaped
    backslashes, so it is a backslash, an [n], a backslash and an [n]. *)
Definition summaries_separator : string := "\n\n".

(** [AISummarizer._ai_meta_summarize(all_summaries)]. *)
Definition _ai_meta_summarize (post : completion) (all_summaries : string) : string :=
  match post meta_system_prompt meta_prompt with
  | inr content => Str.strip content
  | inl _ => _fallback_meta_summary (StrMore.split summaries_separator all_summaries)
  end.

(** [AISummarizer.generate_meta_summary(articles_df, summary_column)] on the
    rows of the column.  [_initialize_client] sets [client], [session] and
    [api_available] together, so the test of line 186 is the one on
    [api_available]. *)
Definition generate_meta_summary (self : AISummarizer) (post : completion)
    (rows : list Cell) : string :=
  match collect_summaries [] rows with
  | inl _ => "Meta-summary generation failed"
  | inr summaries =>
      match summaries with
      | [] => "No valid summaries available for meta-summary generation"
      | _ :: _ =>
          let all_summaries := StrMore.join summaries_separator summaries in
          if api_available self then _ai_meta_summarize post all_summaries
          else _fallback_meta_summary summaries
      end
  end.

(** The summaries the loop of [generate_meta_summary] keeps. *)
Definition valid_summaries (rows : list Cell) : list string :=
  flat_map (fun cell => match cell with
                        | Text summary => if valid_summary summary then [summary] else []
                        | NaN => []
                        end) rows.

(** The environment of a run whose meta-summary is the one of the
    repository, made by the summariser of [base]. *)
Definition with_meta_summary (base : Pipeline.Env) (post : completion) : Pipeline.Env :=
  {| Pipeline.fetch_all_sources := Pipeline.fetch_all_sources base;
     Pipeline.extract_content_batch := Pipeline.extract_content_batch base;
     Pipeline.DUPLICATE_THRESHOLD := Pipeline.DUPLICATE_THRESHOLD base;
     Pipeline.tfidf_cosine := Pipeline.tfidf_cosine base;
     Pipeline.summarizer := Pipeline.summarizer base;
     Pipeline.generate_meta_summary :=
       fun articles =>
         inr (generate_meta_summary (Pipeline.summarizer base) post
                (data_frame_column articles));
     Pipeline.today := Pipeline.today base;
     Pipeline.generate_podcast := Pipeline.generate_podcast base;
     Pipeline.send_daily_podcast := Pipeline.send_daily_podcast base;
     Pipeline.send_text_summary_sync := Pipeline.send_text_summary_sync base |}.

(** A model that answers every request with the same script, and one that
    cannot be reached. *)
Definition scripted : completion := fun _ _ => inr " Good evening. ".

Definition unreachable : completion := fun _ _ => inl "timeout".

End MetaSummary.

(** ** Notions about the meta-summary *)

Module MetaNotions.

(** ['\\' in s]: the text holds a backslash. *)
Definition has_backslash (s : string) : bool :=
  Str.contains (String (ascii_of_nat 92) EmptyString) s.

(** The batch the meta-summary stage of a run receives. *)
Definition summarised (env : Pipeline.Env) : list Article :=
  Summarizer.process_article_summaries (Pipeline.summarizer env) (Spec.deduplicated env).

End MetaNotions.

(** ** Notions about a run *)

Module RunNotions.

Import Pipeline Pipeline.NewsProcessor.

(** The batch after the extraction stage of a fresh run that got past the
    fetch stage. *)
Definition extracted (env : Env) : list Article :=
  let '(articles, p1) := _fetch_articles env init in
  (_extract_content env articles p1).1.

(** The five article counters of the statistics. *)
Definition counters (s : Stats) : nat * nat * nat * Z * nat :=
  (articles_fetched s, articles_with_content s, articles_after_deduplication s,
   duplicates_removed s, ai_summaries_generated s).

(** The report of a delivery through [send_daily_podcast]: its own report,
    or the one of the handler when it raised. *)
Definition audio_delivery (env : Env) (file meta : string) : TelegramResult :=
  match send_daily_podcast env file meta with
  | inr telegram_result => telegram_result
  | inl e => telegram_failed e
  end.

(** The report of a text-only delivery. *)
Definition text_delivery (env : Env) (meta : string) : TelegramResult :=
  match send_text_summary_sync env meta with
  | inr sent =>
      {| podcast_sent := false; text_sent := sent;
         primary_method := Some (if sent then "text" else "failed");
         telegram_error := None |}
  | inl e => telegram_failed e
  end.

(** A stage that only appends to the error list. *)
Definition grows {A} (m : M A) : Prop :=
  forall p, errors (stats p) `prefix_of` errors (stats (m p).2).

(** A stage that leaves the article counters alone. *)
Definition keeps {A} (m : M A) : Prop :=
  forall p, counters (stats (m p).2) = counters (stats p).

End RunNotions.

(** * Properties of the deduplication engine *)

Module DedupFacts.

Import Dedup Spec.

(** *** Comparisons of scores *)

Lemma score_gt_true (s : score) (t : Q) :
  score_gt s t = true <-> exists q, s = SNum q /\ (t < q)%Q.
Proof.
  destruct s as [|q]; simpl.
  - split; [discriminate | intros (q & Hq & _); discriminate].
  - rewrite negb_true_iff. split.
    + intros H. exists q. split; [reflexivity|].
      apply Qnot_le_lt. intros Hle. apply Qle_bool_iff in Hle. congruence.
    + intros (q' & Hq & Hlt). injection Hq as <-.
      destruct (Qle_bool q t) eqn:E; [|reflexivity].
      apply Qle_bool_iff in E. exfalso. exact (Qlt_not_le _ _ Hlt E).
Qed.

Lemma score_gt_mono (s : score) (t1 t2 : Q) :
  (t1 <= t2)%Q -> score_gt s t2 = true -> score_gt s t1 = true.
Proof.
  intros Hle H. apply score_gt_true in H as (q & -> & Hlt).
  apply score_gt_true. exists q. split; [reflexivity|].
  eapply Qle_lt_trans; eassumption.
Qed.

(** *** The double loop *)

Section Loops.

Variable articles : list Article.
Variable cosine_sim : matrix.
Variable threshold : Q.

Lemma pair_step_removal (i j : nat) (st : loop_state) (k : nat) :
  k ∈ (pair_step articles cosine_sim threshold i st j).2 <->
  k ∈ st.2 \/ marks articles cosine_sim threshold i j k.
Proof.
  unfold pair_step, marks, loser.
  destruct (score_gt (cosine_sim i j) threshold);
    [|split; [auto | intros [H | [H _]]; [exact H | discriminate]]].
  destruct (articles !! i) as [a1|];
    [|split; [auto | intros [H | [_ H]]; [exact H | discriminate]]].
  destruct (articles !! j) as [a2|];
    [|split; [auto | intros [H | [_ H]]; [exact H | discriminate]]].
  destruct (content_length a2 <=? content_length a1)%nat; simpl;
    rewrite elem_of_union, elem_of_singleton; split.
  - intros [-> | H]; [right; split; reflexivity | left; exact H].
  - intros [H | [_ H]]; [right; exact H | left; congruence].
  - intros [-> | H]; [right; split; reflexivity | left; exact H].
  - intros [H | [_ H]]; [right; exact H | left; congruence].
Qed.

Lemma inner_fold_removal (i : nat) (js : list nat) (st : loop_state) (k : nat) :
  k ∈ (foldl (pair_step articles cosine_sim threshold i) st js).2 <->
  k ∈ st.2 \/ exists j, j ∈ js /\ marks articles cosine_sim threshold i j k.
Proof.
  revert st. induction js as [|j js IH]; intros st; simpl.
  - split; [auto | intros [H | (j & Hj & _)]; [exact H | inversion Hj]].
  - rewrite IH, pair_step_removal. split.
    + intros [[H | H] | (j' & Hj' & H)].
      * left; exact H.
      * right. exists j. split; [left | exact H].
      * right. exists j'. split; [right; exact Hj' | exact H].
    + intros [H | (j' & Hj' & H)].
      * left; left; exact H.
      * apply elem_of_cons in Hj' as [-> | Hj'].
        -- left; right; exact H.
        -- right. exists j'. split; assumption.
Qed.

Lemma inner_loop_removal (i : nat) (st : loop_state) (k : nat) :
  k ∈ (inner_loop articles cosine_sim threshold st i).2 <->
  k ∈ st.2 \/ exists j, i < j < length articles /\ marks articles cosine_sim threshold i j k.
Proof.
  unfold inner_loop. rewrite inner_fold_removal.
  split; (intros [H | (j & Hj & H)]; [left; exact H | right; exists j; split; [|exact H]]).
  - apply elem_of_seq in Hj. lia.
  - apply elem_of_seq. lia.
Qed.

Lemma outer_fold_removal (rows : list nat) (st : loop_state) (k : nat) :
  k ∈ (foldl (inner_loop articles cosine_sim threshold) st rows).2 <->
  k ∈ st.2 \/ exists i j, i ∈ rows /\ i < j < length articles /\ marks articles cosine_sim threshold i j k.
Proof.
  revert st. induction rows as [|i rows IH]; intros st; simpl.
  - split; [auto | intros [H | (i & j & Hi & _)]; [exact H | inversion Hi]].
  - rewrite IH, inner_loop_removal. split.
    + intros [[H | (j & Hj & H)] | (i' & j & Hi' & Hj & H)].
      * left; exact H.
      * right. exists i, j. split; [left | split; assumption].
      * right. exists i', j. split; [right; exact Hi' | split; assumption].
    + intros [H | (i' & j & Hi' & Hj & H)].
      * left; left; exact H.
      * apply elem_of_cons in Hi' as [-> | Hi'].
        -- left; right. exists j. split; assumption.
        -- right. exists i', j. split; [exact Hi' | split; assumption].
Qed.

(** The removal set of the double loop is the set of losers of the pairs
    above the threshold. *)
Lemma outer_loop_removal (k : nat) :
  k ∈ (outer_loop articles cosine_sim threshold).2 <->
  exists i j, i < j < length articles /\ marks articles cosine_sim threshold i j k.
Proof.
  unfold outer_loop. rewrite outer_fold_removal. simpl. split.
  - intros [H | (i & j & _ & Hj & H)]; [set_solver | exists i, j; split; assumption].
  - intros (i & j & Hj & H). right. exists i, j.
    split; [apply elem_of_seq; lia | split; assumption].
Qed.


End Loops.

(** The removal set of [find_duplicates] when the scorer returns. *)
Lemma find_duplicates_removal (tfidf_cosine : scorer) (articles : list Article)
    (t : Q) (m : matrix) (k : nat) :
  tfidf_cosine (comparison_texts articles) = inr m ->
  k ∈ articles_to_remove (find_duplicates tfidf_cosine articles t) <->
  exists i j, i < j < length articles /\ marks articles m t i j k.
Proof.
  intros Hm. unfold find_duplicates.
  destruct (length articles <? 2)%nat eqn:Hlen.
  - apply Nat.ltb_lt in Hlen. simpl. split; [set_solver|].
    intros (i & j & Hj & _). lia.
  - rewrite Hm. simpl. apply outer_loop_removal.
Qed.

(** The removal set is empty when the scorer raises. *)
Lemma find_duplicates_raise (tfidf_cosine : scorer) (articles : list Article)
    (t : Q) (e : string) :
  tfidf_cosine (comparison_texts articles) = inl e ->
  articles_to_remove (find_duplicates tfidf_cosine articles t) = ∅ /\
  duplicate_pairs (find_duplicates tfidf_cosine articles t) = [].
Proof.
  intros He. unfold find_duplicates.
  destruct (length articles <? 2)%nat; [split; reflexivity|].
  rewrite He. split; reflexivity.
Qed.

Lemma stats_articles_to_remove_size (tfidf_cosine : scorer)
    (articles : list Article) (t : Q) :
  let r := find_duplicates tfidf_cosine articles t in
  stats_articles_to_remove (stats r) = size (articles_to_remove r) /\
  duplicate_pairs_found (stats r) = length (duplicate_pairs r).
Proof.
  unfold find_duplicates.
  destruct (length articles <? 2)%nat; [split; reflexivity|].
  destruct (tfidf_cosine (comparison_texts articles)); split; reflexivity.
Qed.



(** C2.  For a fixed batch and thresholds [t1 <= t2], the removal set at
    [t2] is included in the removal set at [t1], so it is no larger: raising
    the threshold never marks more articles. *)
Theorem find_duplicates_threshold_monotone (tfidf_cosine : scorer)
    (articles : list Article) (t1 t2 : Q) :
  (t1 <= t2)%Q ->
  let r1 := find_duplicates tfidf_cosine articles t1 in
  let r2 := find_duplicates tfidf_cosine articles t2 in
  articles_to_remove r2 ⊆ articles_to_remove r1 /\
  size (articles_to_remove r2) <= size (articles_to_remove r1) /\
  stats_articles_to_remove (stats r2) <= stats_articles_to_remove (stats r1).
Proof.
  intros Hle r1 r2.
  assert (Hsub : articles_to_remove r2 ⊆ articles_to_remove r1).
  { unfold r1, r2.
    destruct (tfidf_cosine (comparison_texts articles)) as [e|m] eqn:Hm.
    - destruct (find_duplicates_raise _ _ t2 _ Hm) as [-> _]. set_solver.
    - intros k Hk.
      apply (find_duplicates_removal _ _ _ _ _ Hm) in Hk as (i & j & Hij & Hgt & Hl).
      apply (find_duplicates_removal _ _ _ _ _ Hm).
      exists i, j. split; [exact Hij|]. split; [|exact Hl].
      eapply score_gt_mono; eassumption. }
  split; [exact Hsub|].
  assert (Hsize := subseteq_size _ _ Hsub).
  split; [exact Hsize|].
  unfold r1, r2.
  destruct (stats_articles_to_remove_size tfidf_cosine articles t1) as [-> _].
  destruct (stats_articles_to_remove_size tfidf_cosine articles t2) as [-> _].
  exact Hsize.
Qed.

Lemma find_duplicates_threshold_monotone_witness :
  let r1 := find_duplicates Sample.exact_scorer
              [Sample.long_article; Sample.long_article; Sample.short_article]
              (85 # 100) in
  let r2 := find_duplicates Sample.exact_scorer
              [Sample.long_article; Sample.long_article; Sample.short_article]
              (1 # 1) in
  articles_to_remove r2 ⊆ articles_to_remove r1 /\
  size (articles_to_remove r2) <= size (articles_to_remove r1) /\
  stats_articles_to_remove (stats r2) <= stats_articles_to_remove (stats r1).
Proof.
  apply (find_duplicates_threshold_monotone Sample.exact_scorer
           [Sample.long_article; Sample.long_article; Sample.short_article]
           (85 # 100) (1 # 1)).
  vm_compute. discriminate.
Defined.

(** *** Comparison texts *)







(** The same batch with a scorer that raises as scikit-learn does on an
    empty vocabulary: the handler returns the empty answer and keeps the
    message. *)
Example find_duplicates_blank_raises :
  find_duplicates Sample.exact_scorer
    [Sample.blank_article; Sample.blank_article] (85 # 100)
  = {| duplicate_pairs := [];
       articles_to_remove := ∅;
       stats := {| total_articles := 2; duplicate_pairs_found := 0;
                   stats_articles_to_remove := 0;
                   stats_error :=
                     Some "empty vocabulary; perhaps the documents only contain stop words" |} |}.
Proof. reflexivity. Qed.

(** *** Splitting the batch *)

Lemma split_fold (rm : gset nat) (l : list (nat * Article))
    (acc : list Article * list RemovedArticle) :
  foldl (split_step rm) acc l =
  ((acc.1 ++ (filter (fun ia => ia.1 ∉ rm) l).*2)%list,
   (acc.2 ++ (removed_entry <$> filter (fun ia => ia.1 ∈ rm) l))%list).
Proof.
  revert acc. induction l as [|[i a] l IH]; intros [kept removed]; cbn [foldl].
  - simpl. rewrite !app_nil_r. reflexivity.
  - rewrite IH. unfold split_step.
    rewrite !filter_cons. simpl.
    destruct (decide (i ∈ rm)) as [Hin|Hnin].
    + rewrite bool_decide_eq_true_2 by exact Hin.
      rewrite decide_False by (intros Hn; exact (Hn Hin)).
      simpl. rewrite <- app_assoc. reflexivity.
    + rewrite bool_decide_eq_false_2 by exact Hnin.
      rewrite decide_True by exact Hnin.
      simpl. rewrite <- app_assoc. reflexivity.
Qed.

Lemma enumerate_lookup (articles : list Article) (i : nat) (a : Article) :
  articles !! i = Some a -> (i, a) ∈ enumerate articles.
Proof.
  intros Hi. apply list_elem_of_lookup. exists i.
  unfold enumerate. rewrite lookup_zip_with.
  rewrite lookup_seq_lt by (eapply lookup_lt_Some; exact Hi).
  simpl. rewrite Hi. reflexivity.
Qed.


(** What [remove_duplicates] returns, in terms of the removal set. *)
Lemma remove_duplicates_split (tfidf_cosine : scorer) (articles : list Article) (t : Q) :
  let r := remove_duplicates tfidf_cosine articles t in
  let rm := articles_to_remove (find_duplicates tfidf_cosine articles t) in
  Dedup.articles r = (filter (fun ia => ia.1 ∉ rm) (enumerate articles)).*2 /\
  removed_articles r = removed_entry <$> filter (fun ia => ia.1 ∈ rm) (enumerate articles).
Proof.
  destruct articles as [|a l]; [split; reflexivity|].
  unfold remove_duplicates. cbv zeta. rewrite split_fold. split; reflexivity.
Qed.

Lemma filter_split_length {A} (P : A -> Prop) `{forall x, Decision (P x)} (l : list A) :
  length l = length (filter (fun x => ~ P x) l) + length (filter P l).
Proof.
  induction l as [|x l IH]; [reflexivity|].
  rewrite !filter_cons. destruct (decide (P x)) as [Hp|Hn].
  - rewrite decide_False by (intros Hn; exact (Hn Hp)). simpl. lia.
  - rewrite decide_True by exact Hn. simpl. lia.
Qed.

(** C10.  [remove_duplicates] partitions its input: ['articles'] is the
    input at the indices outside the removal set, in the original order;
    ['removed_articles'] is the input at the removed indices, each tagged
    with its index and the reason; and [original_count] is [final_count]
    plus [duplicates_removed]. *)
Theorem remove_duplicates_partition (tfidf_cosine : scorer)
    (articles : list Article) (t : Q) :
  let r := remove_duplicates tfidf_cosine articles t in
  let rm := articles_to_remove (find_duplicates tfidf_cosine articles t) in
  let st := deduplication_stats r in
  Dedup.articles r = (filter (fun ia => ia.1 ∉ rm) (enumerate articles)).*2 /\
  (fun x => (original_index x, removed_article x)) <$> removed_articles r
    = filter (fun ia => ia.1 ∈ rm) (enumerate articles) /\
  Forall (fun x => removal_reason x = "duplicate_content") (removed_articles r) /\
  original_count st = length articles /\
  final_count st = length (Dedup.articles r) /\
  Dedup.duplicates_removed st = Z.of_nat (length (removed_articles r)) /\
  Z.of_nat (original_count st) = (Z.of_nat (final_count st) + Dedup.duplicates_removed st)%Z.
Proof.
  intros r rm st.
  destruct (remove_duplicates_split tfidf_cosine articles t) as [Hk Hr].
  fold r rm in Hk, Hr.
  assert (Hlen : length articles
                 = length (Dedup.articles r) + length (removed_articles r)).
  { rewrite Hk, Hr, !length_fmap.
    rewrite <- (filter_split_length (fun ia : nat * Article => ia.1 ∈ rm)).
    unfold enumerate. rewrite length_zip_with, length_seq. lia. }
  assert (Hst : original_count st = length articles /\
                final_count st = length (Dedup.articles r) /\
                Dedup.duplicates_removed st
                = (Z.of_nat (length articles) - Z.of_nat (length (Dedup.articles r)))%Z).
  { unfold st, r. destruct articles; repeat split; reflexivity. }
  destruct Hst as (Ho & Hf & Hd).
  split; [exact Hk|]. split.
  { rewrite Hr, <- list_fmap_compose.
    erewrite list_fmap_ext; [apply list_fmap_id|].
    intros i [] _. reflexivity. }
  split.
  { rewrite Hr. apply Forall_fmap, Forall_forall. intros; reflexivity. }
  rewrite Ho, Hf, Hd. repeat split; lia.
Qed.

(** *** The longest article survives *)

Lemma first_longest_exists (articles : list Article) :
  articles <> [] -> exists m a, first_longest articles m a.
Proof.
  induction articles as [|a l IH]; [congruence | intros _].
  destruct l as [|b l].
  - exists 0, a. repeat split.
    + intros [|k] c Hk; simpl in Hk; [|discriminate]. injection Hk as <-. lia.
    + intros k c Hlt. lia.
  - destruct IH as (m & c & Hm & Hmax & Hlow); [discriminate|].
    destruct (le_lt_dec (content_length c) (content_length a)) as [Hle|Hlt].
    + exists 0, a. repeat split.
      * intros [|k] d Hk; simpl in Hk.
        -- injection Hk as <-. lia.
        -- specialize (Hmax k d Hk). lia.
      * intros k d Hk0. lia.
    + exists (S m), c. repeat split.
      * exact Hm.
      * intros [|k] d Hk; simpl in Hk.
        -- injection Hk as <-. lia.
        -- exact (Hmax k d Hk).
      * intros [|k] d Hk Hd; simpl in Hd.
        -- injection Hd as <-. exact Hlt.
        -- apply (Hlow k d); [lia | exact Hd].
Qed.

(** No pair decision removes the first longest article. *)
Lemma first_longest_kept (tfidf_cosine : scorer) (articles : list Article)
    (t : Q) (m : nat) (a : Article) :
  first_longest articles m a ->
  m ∉ articles_to_remove (find_duplicates tfidf_cosine articles t).
Proof.
  intros (Hm & Hmax & Hlow).
  destruct (tfidf_cosine (comparison_texts articles)) as [e|mx] eqn:Hs.
  - destruct (find_duplicates_raise _ _ t _ Hs) as [-> _]. set_solver.
  - intros Hin.
    apply (find_duplicates_removal _ _ _ _ _ Hs) in Hin as (i & j & Hij & _ & Hl).
    unfold loser in Hl.
    destruct (articles !! i) as [a1|] eqn:Hi; [|discriminate].
    destruct (articles !! j) as [a2|] eqn:Hj; [|discriminate].
    destruct (Nat.leb_spec (content_length a2) (content_length a1)) as [Hle|Hlt];
      injection Hl as Hl; subst m.
    + specialize (Hlow i a1 (proj1 Hij) Hi).
      rewrite Hj in Hm. injection Hm as <-. lia.
    + specialize (Hmax j a2 Hj).
      rewrite Hi in Hm. injection Hm as <-. lia.
Qed.



(** With every pair declared similar, only the first of the two longest
    articles is kept. *)
Example remove_duplicates_all_similar :
  Dedup.articles
    (remove_duplicates Sample.all_similar
       [Sample.short_article; Sample.long_article; Sample.long_article] (85 # 100))
  = [Sample.long_article].
Proof. vm_compute. reflexivity. Qed.

End DedupFacts.

(** * Properties of the orchestrator *)

Module PipelineFacts.

Import Pipeline Pipeline.NewsProcessor Spec.

(** Unfolding the plumbing of a stage method. *)
Ltac stage :=
  unfold mbind, M_bind, mret, M_ret, enter, update, get_stats; simpl.

Lemma fetch_passes (env : Env) : passes Fetch (_fetch_articles env).
Proof.
  intros p. unfold _fetch_articles. stage.
  destruct (fetch_all_sources env); simpl; split; reflexivity.
Qed.

Lemma extract_passes (env : Env) (articles : list Article) :
  passes Extract (_extract_content env articles).
Proof.
  intros p. unfold _extract_content. stage.
  destruct (extract_content_batch env articles); simpl; split; reflexivity.
Qed.

Lemma deduplicate_passes (env : Env) (articles : list Article) :
  passes Deduplicate (_deduplicate_articles env articles).
Proof. intros p. unfold _deduplicate_articles. stage. split; reflexivity. Qed.

Lemma summaries_pass (env : Env) (articles : list Article) :
  passes Summarize (_generate_summaries env articles).
Proof. intros p. unfold _generate_summaries. stage. split; reflexivity. Qed.

Lemma meta_summary_passes (env : Env) (articles : list Article) :
  passes MetaSummarize (_create_meta_summary env articles).
Proof.
  intros p. unfold _create_meta_summary. stage.
  destruct (generate_meta_summary env articles); simpl; split; reflexivity.
Qed.

Lemma podcast_passes (env : Env) (meta : string) :
  passes Synthesize (_generate_podcast env meta).
Proof.
  intros p. unfold _generate_podcast. stage.
  destruct (generate_podcast env meta) as [e|[pr|]]; simpl; [split; reflexivity| |split; reflexivity].
  destruct (success pr); simpl; [|split; reflexivity].
  destruct (local_file pr); simpl; [|split; reflexivity].
  destruct (cloud_storage pr) as [c|]; simpl; [|split; reflexivity].
  destruct (cloud_success c); simpl; [|split; reflexivity].
  destruct (public_url c); simpl; split; reflexivity.
Qed.

(** Delivery: the flag is raised exactly when the report says something was
    sent. *)
Lemma record_delivery_effect (tr : TelegramResult) (p : Processor) :
  (record_delivery tr p).1 = tr /\
  attempted (record_delivery tr p).2 = attempted p /\
  telegram_sent (stats (record_delivery tr p).2)
  = telegram_sent (stats p) || (podcast_sent tr || text_sent tr).
Proof.
  unfold record_delivery. stage.
  destruct (podcast_sent tr || text_sent tr); simpl.
  - rewrite orb_true_r. repeat split.
  - rewrite orb_false_r. repeat split.
Qed.

Lemma delivery_exception_effect (e : string) (p : Processor) :
  (delivery_exception e p).1 = telegram_failed e /\
  attempted (delivery_exception e p).2 = attempted p /\
  telegram_sent (stats (delivery_exception e p).2) = telegram_sent (stats p).
Proof. unfold delivery_exception. stage. repeat split. Qed.

Lemma send_telegram_effect (env : Env) (podcast_result : option PodcastResult)
    (meta : string) (p : Processor) :
  let out := _send_telegram env podcast_result meta p in
  attempted out.2 = (attempted p ++ [Deliver])%list /\
  telegram_sent (stats out.2)
  = telegram_sent (stats p) || (podcast_sent out.1 || text_sent out.1).
Proof.
  unfold _send_telegram. unfold mbind, M_bind, enter.
  set (p0 := {| stats := stats p; attempted := (attempted p ++ [Deliver])%list |}).
  assert (Hrec : forall tr,
    attempted (record_delivery tr p0).2 = (attempted p ++ [Deliver])%list /\
    telegram_sent (stats (record_delivery tr p0).2)
    = telegram_sent (stats p)
      || (podcast_sent (record_delivery tr p0).1 || text_sent (record_delivery tr p0).1)).
  { intros tr. destruct (record_delivery_effect tr p0) as (-> & -> & ->).
    split; reflexivity. }
  assert (Hexn : forall e,
    attempted (delivery_exception e p0).2 = (attempted p ++ [Deliver])%list /\
    telegram_sent (stats (delivery_exception e p0).2)
    = telegram_sent (stats p)
      || (podcast_sent (delivery_exception e p0).1
          || text_sent (delivery_exception e p0).1)).
  { intros e. destruct (delivery_exception_effect e p0) as (-> & -> & ->).
    simpl. rewrite orb_false_r. split; reflexivity. }
  cbv zeta.
  destruct podcast_result as [[[] file ? ? cloud]|].
  - match goal with |- context [if ?b then _ else _] => destruct b end; [apply Hexn|].
    destruct file as [f|]; [|apply Hexn].
    destruct (send_daily_podcast env f meta); [apply Hexn | apply Hrec].
  - destruct (send_text_summary_sync env meta); [apply Hexn | apply Hrec].
  - destruct (send_text_summary_sync env meta); [apply Hexn | apply Hrec].
Qed.

Lemma finish_with_error_effect (msg : string) (p : Processor) :
  let out := _finish_with_error msg p in
  status out.1 = "error" /\ error out.1 = Some msg /\
  articles_processed out.1 = None /\ meta_summary out.1 = None /\
  podcast out.1 = None /\ telegram_result out.1 = None /\
  statistics out.1 = append_error msg (stats p) /\
  attempted out.2 = attempted p.
Proof. unfold _finish_with_error. stage. repeat split. Qed.

Lemma finish_successfully_effect (articles : list Article) (meta : string)
    (pr : option PodcastResult) (tr : TelegramResult) (p : Processor) :
  let out := _finish_successfully articles meta pr tr p in
  status out.1 = "success" /\ error out.1 = None /\
  articles_processed out.1 = Some (length articles) /\
  meta_summary out.1 = Some meta /\
  telegram_result out.1 = Some tr /\
  statistics out.1 = stats p /\
  attempted out.2 = attempted p.
Proof. unfold _finish_successfully. stage. repeat split. Qed.

(** The run, stage by stage. *)
Lemma run_daily_pipeline_unfold (env : Env) (p : Processor) :
  NewsProcessor.run_daily_pipeline env p =
  let '(fetched, p1) := _fetch_articles env p in
  match fetched with
  | [] => _finish_with_error "No articles fetched from RSS feeds" p1
  | _ :: _ =>
      let '(extracted, p2) := _extract_content env fetched p1 in
      let '(dedup_result, p3) := _deduplicate_articles env extracted p2 in
      match Dedup.articles dedup_result with
      | [] => _finish_with_error "No articles remaining after deduplication" p3
      | _ :: _ =>
          let '(summarised, p4) :=
            _generate_summaries env (Dedup.articles dedup_result) p3 in
          let '(meta, p5) := _create_meta_summary env summarised p4 in
          let '(podcast_result, p6) := _generate_podcast env meta p5 in
          let '(delivery, p7) := _send_telegram env podcast_result meta p6 in
          _finish_successfully summarised meta podcast_result delivery p7
      end
  end.
Proof.
  unfold NewsProcessor.run_daily_pipeline, mbind, M_bind.
  destruct (_fetch_articles env p) as [[|a l] p1]; [reflexivity|].
  destruct (_extract_content env (a :: l) p1) as [extracted p2].
  destruct (_deduplicate_articles env extracted p2) as [d p3].
  destruct (Dedup.articles d) as [|b k]; reflexivity.
Qed.



(** A feed failure is an empty fetch too: the handler of
    [_fetch_articles] returns the empty list. *)
Example fetch_exception_is_empty :
  fetched (Sample.env (inl "timeout") inr Sample.offline (inr true)) = [].
Proof. reflexivity. Qed.

(** The three stages that precede the second check. *)
Lemma run_to_deduplication (env : Env) :
  exists fetched_articles p1 extracted p2 dedup_result p3,
    _fetch_articles env init = (fetched_articles, p1) /\
    _extract_content env fetched_articles p1 = (extracted, p2) /\
    _deduplicate_articles env extracted p2 = (dedup_result, p3) /\
    fetched env = fetched_articles /\
    deduplicated env = Dedup.articles dedup_result /\
    attempted p3 = [Fetch; Extract; Deduplicate] /\
    telegram_sent (stats p3) = false.
Proof.
  destruct (_fetch_articles env init) as [a1 p1] eqn:E1.
  destruct (_extract_content env a1 p1) as [a2 p2] eqn:E2.
  destruct (_deduplicate_articles env a2 p2) as [d p3] eqn:E3.
  exists a1, p1, a2, p2, d, p3.
  split; [reflexivity|]. split; [exact E2|]. split; [exact E3|].
  split; [|split; [|split]].
  - unfold fetched. rewrite E1. reflexivity.
  - unfold deduplicated. rewrite E1, E2, E3. reflexivity.
  - destruct (fetch_passes env init) as [H1 _].
    destruct (extract_passes env a1 p1) as [H2 _].
    destruct (deduplicate_passes env a2 p2) as [H3 _].
    rewrite E1 in H1. rewrite E2 in H2. rewrite E3 in H3. simpl in *.
    rewrite H3, H2, H1. reflexivity.
  - destruct (fetch_passes env init) as [_ H1].
    destruct (extract_passes env a1 p1) as [_ H2].
    destruct (deduplicate_passes env a2 p2) as [_ H3].
    rewrite E1 in H1. rewrite E2 in H2. rewrite E3 in H3. simpl in *.
    rewrite H3, H2, H1. reflexivity.
Qed.

(** C7.  When the batch is empty after deduplication, the run stops with
    status ['error'] and the message that no articles remain after
    deduplication; summarisation and the later stages are not entered. *)
Theorem run_empty_after_deduplication (env : Env) :
  fetched env <> [] ->
  deduplicated env = [] ->
  let out := Pipeline.run_daily_pipeline env in
  status out.1 = "error" /\
  error out.1 = Some "No articles remaining after deduplication" /\
  articles_processed out.1 = None /\
  meta_summary out.1 = None /\
  telegram_result out.1 = None /\
  attempted out.2 = [Fetch; Extract; Deduplicate].
Proof.
  intros Hf Hd.
  destruct (run_to_deduplication env)
    as (a1 & p1 & a2 & p2 & d & p3 & E1 & E2 & E3 & Hfe & Hde & Hatt & _).
  unfold Pipeline.run_daily_pipeline. rewrite run_daily_pipeline_unfold, E1.
  rewrite Hfe in Hf. destruct a1 as [|a l]; [congruence|].
  rewrite E2, E3. rewrite Hde in Hd. rewrite Hd.
  destruct (finish_with_error_effect "No articles remaining after deduplication" p3)
    as (H1 & H2 & H3 & H4 & _ & H6 & _ & H8).
  cbv zeta. rewrite H1, H2, H3, H4, H6, H8, Hatt. repeat split.
Qed.

Lemma run_empty_after_deduplication_witness :
  let out := Pipeline.run_daily_pipeline
               (Sample.env (inr [Sample.long_article]) (fun _ => inr [])
                  Sample.offline (inr true)) in
  status out.1 = "error" /\
  error out.1 = Some "No articles remaining after deduplication" /\
  articles_processed out.1 = None /\
  meta_summary out.1 = None /\
  telegram_result out.1 = None /\
  attempted out.2 = [Fetch; Extract; Deduplicate].
Proof.
  apply (run_empty_after_deduplication
           (Sample.env (inr [Sample.long_article]) (fun _ => inr [])
              Sample.offline (inr true))).
  - discriminate.
  - reflexivity.
Defined.

(** Past the two checks every stage is entered and the run succeeds; the
    delivery flag of the statistics is what the delivery report says. *)
Lemma run_past_checks (env : Env) :
  fetched env <> [] ->
  deduplicated env <> [] ->
  let out := Pipeline.run_daily_pipeline env in
  status out.1 = "success" /\
  error out.1 = None /\
  attempted out.2
  = [Fetch; Extract; Deduplicate; Summarize; MetaSummarize; Synthesize; Deliver] /\
  exists tr, telegram_result out.1 = Some tr /\
             telegram_sent (statistics out.1) = podcast_sent tr || text_sent tr.
Proof.
  intros Hf Hd.
  destruct (run_to_deduplication env)
    as (a1 & p1 & a2 & p2 & d & p3 & E1 & E2 & E3 & Hfe & Hde & Hatt & Hflag).
  unfold Pipeline.run_daily_pipeline. rewrite run_daily_pipeline_unfold, E1.
  rewrite Hfe in Hf. destruct a1 as [|a l]; [congruence|].
  rewrite E2, E3. rewrite Hde in Hd.
  destruct (Dedup.articles d) as [|b k] eqn:Ed; [congruence|].
  destruct (summaries_pass env (b :: k) p3) as [A4 F4].
  destruct (_generate_summaries env (b :: k) p3) as [a4 p4].
  destruct (meta_summary_passes env a4 p4) as [A5 F5].
  destruct (_create_meta_summary env a4 p4) as [ms p5].
  destruct (podcast_passes env ms p5) as [A6 F6].
  destruct (_generate_podcast env ms p5) as [pr p6].
  destruct (send_telegram_effect env pr ms p6) as [A7 F7].
  destruct (_send_telegram env pr ms p6) as [tr p7].
  destruct (finish_successfully_effect a4 ms pr tr p7)
    as (H1 & H2 & _ & _ & H5 & H6 & H7).
  cbv beta iota zeta in *. cbn [fst snd] in *.
  rewrite H1, H2, H7, A7, A6, A5, A4, Hatt.
  split; [reflexivity|]. split; [reflexivity|]. split; [reflexivity|].
  exists tr. split; [exact H5|].
  rewrite H6, F7, F6, F5, F4, Hflag. reflexivity.
Qed.

(** C6.  In a run that passes the two fatal checks, a delivery that sent
    neither the podcast nor the text leaves the status at ['success'] and
    the run without an ['error'] entry; the failure shows only in the
    statistics, where [telegram_sent] stays false. *)
Theorem run_delivery_failure (env : Env) (tr : TelegramResult) :
  fetched env <> [] ->
  deduplicated env <> [] ->
  telegram_result (Pipeline.run_daily_pipeline env).1 = Some tr ->
  podcast_sent tr = false ->
  text_sent tr = false ->
  status (Pipeline.run_daily_pipeline env).1 = "success" /\
  error (Pipeline.run_daily_pipeline env).1 = None /\
  telegram_sent (statistics (Pipeline.run_daily_pipeline env).1) = false.
Proof.
  intros Hf Hd Htr Hp Ht.
  destruct (run_past_checks env Hf Hd) as (Hs & He & _ & tr' & Htr' & Hflag).
  split; [exact Hs|]. split; [exact He|].
  rewrite Htr in Htr'. injection Htr' as <-.
  rewrite Hflag, Hp, Ht. reflexivity.
Qed.

Lemma run_delivery_failure_witness :
  status (Pipeline.run_daily_pipeline
            (Sample.env (inr [Sample.long_article]) inr Sample.offline
               (inl "chat not found"))).1 = "success" /\
  error (Pipeline.run_daily_pipeline
           (Sample.env (inr [Sample.long_article]) inr Sample.offline
              (inl "chat not found"))).1 = None /\
  telegram_sent
    (statistics
       (Pipeline.run_daily_pipeline
          (Sample.env (inr [Sample.long_article]) inr Sample.offline
             (inl "chat not found"))).1) = false.
Proof.
  apply (run_delivery_failure
           (Sample.env (inr [Sample.long_article]) inr Sample.offline
              (inl "chat not found"))
           (telegram_failed "chat not found")).
  - discriminate.
  - discriminate.
  - reflexivity.
  - reflexivity.
  - reflexivity.
Defined.

(** The statistics of that run: the delivery error is appended to
    [errors], next to the missing podcast. *)
Example failed_delivery_is_logged :
  errors (statistics
            (Pipeline.run_daily_pipeline
               (Sample.env (inr [Sample.long_article]) inr Sample.offline
                  (inl "chat not found"))).1)
  = ["Podcast generation failed"; "Telegram sending failed: chat not found"].
Proof. reflexivity. Qed.

(** *** Counting summaries *)










(** A blank reply of the model is counted as a fallback as well. *)
Example generate_summaries_blank_reply :
  let env := Sample.env (inr [Sample.long_article]) inr
               (Sample.answering "  ") (inr true) in
  let out := _generate_summaries env [Sample.long_article] init in
  ai_summaries_generated (stats out.2) = 0 /\
  length (List.filter (primary_failed (summarizer env)) [Sample.long_article]) = 0.
Proof. vm_compute. split; reflexivity. Qed.

(** Without an API key every article with text takes the extractive
    fallback, and the two counts agree. *)
Example generate_summaries_offline :
  let env := Sample.env (inr [Sample.long_article]) inr Sample.offline (inr true) in
  let out := _generate_summaries env [Sample.long_article; Sample.short_article] init in
  ai_summary <$> out.1
  = [Some "Rates rise again today. [Extractive summary - AI summarization unavailable]";
     Some "Rates rise. [Extractive summary - AI summarization unavailable]"] /\
  ai_summaries_generated (stats out.2) = 0 /\
  length (List.filter (primary_failed (summarizer env))
            [Sample.long_article; Sample.short_article]) = 2.
Proof. vm_compute. repeat split. Qed.

End PipelineFacts.

(** * Further properties of the deduplication engine *)

Module DedupMore.

Import Dedup Spec Notions DedupFacts.

#[local] Instance above_dec (m : matrix) (t : Q) (ij : nat * nat) :
  Decision (above m t ij).
Proof. unfold above. apply _. Defined.

(** *** The recorded pairs *)

Section Pairs.

Variable articles : list Article.
Variable cosine_sim : matrix.
Variable threshold : Q.

Lemma pair_step_pairs (i j : nat) (st : loop_state) :
  i < length articles -> j < length articles ->
  (pair_step articles cosine_sim threshold i st j).1 =
  (st.1 ++ (pair_entry articles cosine_sim
              <$> filter (above cosine_sim threshold) [(i, j)]))%list.
Proof.
  intros Hi Hj.
  assert (Hf : filter (above cosine_sim threshold) [(i, j)]
               = if score_gt (cosine_sim i j) threshold then [(i, j)] else []).
  { rewrite filter_cons, filter_nil.
    destruct (decide (above cosine_sim threshold (i, j))) as [H|H];
      unfold above in H; simpl in H.
    - rewrite H. reflexivity.
    - apply not_true_is_false in H. rewrite H. reflexivity. }
  rewrite Hf. unfold pair_step.
  destruct (lookup_lt_is_Some_2 articles i Hi) as [a1 H1].
  destruct (lookup_lt_is_Some_2 articles j Hj) as [a2 H2].
  destruct (score_gt (cosine_sim i j) threshold).
  - rewrite H1, H2. unfold pair_entry. simpl. rewrite H1, H2. simpl.
    destruct (content_length a2 <=? content_length a1)%nat; reflexivity.
  - simpl. rewrite app_nil_r. reflexivity.
Qed.

Lemma inner_fold_pairs (i : nat) (js : list nat) (st : loop_state) :
  i < length articles -> Forall (fun j => j < length articles) js ->
  (foldl (pair_step articles cosine_sim threshold i) st js).1 =
  (st.1 ++ (pair_entry articles cosine_sim
              <$> filter (above cosine_sim threshold) (pair i <$> js)))%list.
Proof.
  intros Hi Hjs. revert st. induction Hjs as [|j js Hj _ IH]; intros st.
  - simpl. rewrite app_nil_r. reflexivity.
  - cbn [foldl]. rewrite IH, pair_step_pairs by assumption.
    rewrite fmap_cons. change ((i, j) :: (pair i <$> js)) with ([(i, j)] ++ (pair i <$> js))%list.
    rewrite (filter_app _ [(i, j)]), fmap_app, app_assoc. reflexivity.
Qed.

Lemma outer_fold_pairs (rows : list nat) (st : loop_state) :
  Forall (fun i => i < length articles) rows ->
  (foldl (inner_loop articles cosine_sim threshold) st rows).1 =
  (st.1 ++ (pair_entry articles cosine_sim
              <$> filter (above cosine_sim threshold)
                    (i ← rows; pair i <$> seq (S i) (length articles - S i))))%list.
Proof.
  intros Hrows. revert st. induction Hrows as [|i rows Hi _ IH]; intros st.
  - simpl. rewrite app_nil_r. reflexivity.
  - cbn [foldl]. rewrite IH. unfold inner_loop.
    rewrite inner_fold_pairs.
    + cbn [mbind list_bind]. rewrite filter_app, fmap_app, app_assoc. reflexivity.
    + exact Hi.
    + apply Forall_forall. intros j Hj. apply elem_of_seq in Hj. lia.
Qed.

End Pairs.

(** X1.  When the scorer returns, [duplicate_pairs] lists exactly the pairs
    [(i, j)], [i < j], whose score exceeds the threshold, in row order, each
    with its score and the titles and sources of its two articles. *)
Theorem find_duplicates_pairs (tfidf_cosine : scorer) (articles : list Article)
    (t : Q) (cosine_sim : matrix) :
  tfidf_cosine (comparison_texts articles) = inr cosine_sim ->
  duplicate_pairs (find_duplicates tfidf_cosine articles t) =
  pair_entry articles cosine_sim
    <$> filter (above cosine_sim t) (index_pairs (length articles)).
Proof.
  intros Hm. unfold find_duplicates.
  destruct (length articles <? 2)%nat eqn:Hlen.
  - apply Nat.ltb_lt in Hlen.
    destruct articles as [|a [|b l]]; simpl in Hlen; try lia; reflexivity.
  - rewrite Hm. cbv zeta. cbn [duplicate_pairs]. unfold outer_loop.
    rewrite outer_fold_pairs; [reflexivity|].
    apply Forall_forall. intros i Hi. apply elem_of_seq in Hi. lia.
Qed.

Lemma find_duplicates_pairs_witness :
  duplicate_pairs
    (find_duplicates Sample.exact_scorer
       [Sample.long_article; Sample.short_article; Sample.long_article] (85 # 100)) =
  pair_entry [Sample.long_article; Sample.short_article; Sample.long_article]
    (fun i j =>
       match Dedup.comparison_texts
               [Sample.long_article; Sample.short_article; Sample.long_article] !! i,
             Dedup.comparison_texts
               [Sample.long_article; Sample.short_article; Sample.long_article] !! j
       with
       | Some a, Some b => if String.eqb a b then SNum 1 else SNum 0
       | _, _ => SNum 0
       end)
    <$> filter
          (above
             (fun i j =>
                match Dedup.comparison_texts
                        [Sample.long_article; Sample.short_article; Sample.long_article] !! i,
                      Dedup.comparison_texts
                        [Sample.long_article; Sample.short_article; Sample.long_article] !! j
                with
                | Some a, Some b => if String.eqb a b then SNum 1 else SNum 0
                | _, _ => SNum 0
                end) (85 # 100))
          (index_pairs 3).
Proof.
  apply (find_duplicates_pairs Sample.exact_scorer
           [Sample.long_article; Sample.short_article; Sample.long_article] (85 # 100)).
  reflexivity.
Defined.

(** *** Bounds on the removal set *)







(** *** When nothing is compared *)

Lemma enumerate_snd (articles : list Article) : (enumerate articles).*2 = articles.
Proof. unfold enumerate. apply snd_zip. rewrite length_seq. lia. Qed.

Lemma filter_all {A} (P : A -> Prop) `{forall x, Decision (P x)} (l : list A) :
  (forall x, P x) -> filter P l = l.
Proof.
  intros HP. induction l as [|x l IH]; [reflexivity|].
  rewrite filter_cons, decide_True by apply HP. rewrite IH. reflexivity.
Qed.

Lemma filter_none {A} (P : A -> Prop) `{forall x, Decision (P x)} (l : list A) :
  (forall x, ~ P x) -> filter P l = [].
Proof.
  intros HP. induction l as [|x l IH]; [reflexivity|].
  rewrite filter_cons, decide_False by apply HP. exact IH.
Qed.

Lemma remove_duplicates_nothing_marked (tfidf_cosine : scorer)
    (articles : list Article) (t : Q) :
  articles_to_remove (find_duplicates tfidf_cosine articles t) = ∅ ->
  Dedup.articles (remove_duplicates tfidf_cosine articles t) = articles /\
  removed_articles (remove_duplicates tfidf_cosine articles t) = [].
Proof.
  intros Hrm.
  destruct (remove_duplicates_split tfidf_cosine articles t) as [-> ->].
  rewrite Hrm. split.
  - rewrite filter_all by (intros x; set_solver). apply enumerate_snd.
  - rewrite filter_none by (intros x; set_solver). reflexivity.
Qed.

Lemma remove_duplicates_stats (tfidf_cosine : scorer) (articles : list Article) (t : Q) :
  let r := remove_duplicates tfidf_cosine articles t in
  original_count (deduplication_stats r) = length articles /\
  final_count (deduplication_stats r) = length (Dedup.articles r) /\
  Dedup.duplicates_removed (deduplication_stats r)
  = (Z.of_nat (length articles) - Z.of_nat (length (Dedup.articles r)))%Z.
Proof. destruct articles; repeat split; reflexivity. Qed.

(** X3.  Deduplication fails open: on a batch of fewer than two articles,
    or when the scorer raises, [remove_duplicates] returns the batch as it
    was, removes nothing and reports no duplicate. *)
Theorem remove_duplicates_fails_open (tfidf_cosine : scorer)
    (articles : list Article) (t : Q) :
  length articles < 2 \/
    (exists e, tfidf_cosine (comparison_texts articles) = inl e) ->
  let r := remove_duplicates tfidf_cosine articles t in
  Dedup.articles r = articles /\
  removed_articles r = [] /\
  Dedup.duplicates_removed (deduplication_stats r) = 0%Z /\
  final_count (deduplication_stats r) = length articles.
Proof.
  intros Hcase r.
  assert (Hrm : articles_to_remove (find_duplicates tfidf_cosine articles t) = ∅).
  { destruct Hcase as [Hlt | [e He]].
    - unfold find_duplicates. apply Nat.ltb_lt in Hlt. rewrite Hlt. reflexivity.
    - exact (proj1 (find_duplicates_raise _ _ t _ He)). }
  destruct (remove_duplicates_nothing_marked tfidf_cosine articles t Hrm) as [Hk Hr].
  fold r in Hk, Hr. split; [exact Hk|]. split; [exact Hr|].
  destruct (remove_duplicates_stats tfidf_cosine articles t) as (_ & Hf & Hd).
  fold r in Hf, Hd. rewrite Hf, Hd, Hk. split; [lia | reflexivity].
Qed.

Lemma remove_duplicates_fails_open_witness :
  let r := remove_duplicates Sample.exact_scorer
             [Sample.blank_article; Sample.blank_article; Sample.blank_article]
             (85 # 100) in
  Dedup.articles r = [Sample.blank_article; Sample.blank_article; Sample.blank_article] /\
  removed_articles r = [] /\
  Dedup.duplicates_removed (deduplication_stats r) = 0%Z /\
  final_count (deduplication_stats r) = 3.
Proof.
  apply (remove_duplicates_fails_open Sample.exact_scorer
           [Sample.blank_article; Sample.blank_article; Sample.blank_article]
           (85 # 100)).
  right. eexists. reflexivity.
Defined.

(** *** What the pair decisions guarantee *)

(** X4.  No two articles that the scorer puts above the threshold both
    survive: of every such pair at least one is in the removal set, and so
    is listed in ['removed_articles'] of [remove_duplicates]. *)
Theorem similar_pair_not_kept (tfidf_cosine : scorer) (articles : list Article)
    (t : Q) (cosine_sim : matrix) (i j : nat) :
  tfidf_cosine (comparison_texts articles) = inr cosine_sim ->
  i < j < length articles ->
  score_gt (cosine_sim i j) t = true ->
  (i ∈ articles_to_remove (find_duplicates tfidf_cosine articles t) \/
   j ∈ articles_to_remove (find_duplicates tfidf_cosine articles t)) /\
  exists x, x ∈ removed_articles (remove_duplicates tfidf_cosine articles t) /\
            (original_index x = i \/ original_index x = j).
Proof.
  intros Hm Hij Hgt.
  destruct (lookup_lt_is_Some_2 articles i) as [a1 H1]; [lia|].
  destruct (lookup_lt_is_Some_2 articles j) as [a2 H2]; [lia|].
  assert (Hex : exists k a, (k = i \/ k = j) /\ articles !! k = Some a /\
                  k ∈ articles_to_remove (find_duplicates tfidf_cosine articles t)).
  { destruct (content_length a2 <=? content_length a1)%nat eqn:Hc;
      [exists j, a2 | exists i, a1];
      (split; [auto|]); (split; [assumption|]);
      apply (find_duplicates_removal _ _ _ _ _ Hm);
      exists i, j; (split; [exact Hij|]); (split; [exact Hgt|]);
      unfold loser; rewrite H1, H2, Hc; reflexivity. }
  destruct Hex as (k & a & Hk & Ha & Hin). split.
  - destruct Hk as [-> | ->]; [left | right]; exact Hin.
  - exists (removed_entry (k, a)). split; [|exact Hk].
    destruct (remove_duplicates_split tfidf_cosine articles t) as [_ ->].
    apply list_elem_of_fmap. exists (k, a). split; [reflexivity|].
    apply list_elem_of_filter. split; [exact Hin|].
    apply enumerate_lookup. exact Ha.
Qed.

Lemma similar_pair_not_kept_witness :
  (0 ∈ articles_to_remove
         (find_duplicates Sample.all_similar
            [Sample.long_article; Sample.short_article] (85 # 100)) \/
   1 ∈ articles_to_remove
         (find_duplicates Sample.all_similar
            [Sample.long_article; Sample.short_article] (85 # 100))) /\
  exists x, x ∈ removed_articles
                  (remove_duplicates Sample.all_similar
                     [Sample.long_article; Sample.short_article] (85 # 100)) /\
            (original_index x = 0 \/ original_index x = 1).
Proof.
  apply (similar_pair_not_kept Sample.all_similar
           [Sample.long_article; Sample.short_article] (85 # 100)
           (fun _ _ => SNum 1) 0 1).
  - reflexivity.
  - simpl. lia.
  - reflexivity.
Defined.



(** *** Raising the threshold keeps more *)

Lemma removal_antitone (tfidf_cosine : scorer) (articles : list Article) (t1 t2 : Q) :
  (t1 <= t2)%Q ->
  articles_to_remove (find_duplicates tfidf_cosine articles t2)
  ⊆ articles_to_remove (find_duplicates tfidf_cosine articles t1).
Proof.
  intros Hle.
  destruct (tfidf_cosine (comparison_texts articles)) as [e|m] eqn:Hm.
  - destruct (find_duplicates_raise _ _ t2 _ Hm) as [-> _].
    intros k Hk. exfalso. exact (not_elem_of_empty k Hk).
  - intros k Hk.
    apply (find_duplicates_removal _ _ _ _ _ Hm) in Hk as (i & j & Hij & Hgt & Hl).
    apply (find_duplicates_removal _ _ _ _ _ Hm).
    exists i, j. split; [exact Hij|]. split; [|exact Hl].
    eapply score_gt_mono; eassumption.
Qed.

Lemma filter_sublist_impl {A} (P Q : A -> Prop)
    `{forall x, Decision (P x)} `{forall x, Decision (Q x)} (l : list A) :
  (forall x, P x -> Q x) -> filter P l `sublist_of` filter Q l.
Proof.
  intros HPQ. induction l as [|x l IH]; [constructor|].
  rewrite !filter_cons. destruct (decide (P x)) as [Hp|Hn].
  - rewrite decide_True by (apply HPQ; exact Hp). constructor. exact IH.
  - destruct (decide (Q x)); [constructor|]; exact IH.
Qed.

(** X6.  The articles [remove_duplicates] keeps are a subsequence of its
    input, and the articles kept at a threshold are a subsequence of those
    kept at any higher threshold. *)
Theorem remove_duplicates_threshold_monotone (tfidf_cosine : scorer)
    (articles : list Article) (t1 t2 : Q) :
  (t1 <= t2)%Q ->
  Dedup.articles (remove_duplicates tfidf_cosine articles t1)
    `sublist_of` Dedup.articles (remove_duplicates tfidf_cosine articles t2) /\
  Dedup.articles (remove_duplicates tfidf_cosine articles t2) `sublist_of` articles.
Proof.
  intros Hle.
  destruct (remove_duplicates_split tfidf_cosine articles t1) as [-> _].
  destruct (remove_duplicates_split tfidf_cosine articles t2) as [-> _].
  split.
  - apply fmap_sublist, filter_sublist_impl.
    intros ia Hn Hin. apply Hn. exact (removal_antitone _ _ _ _ Hle _ Hin).
  - rewrite <- (enumerate_snd articles) at 2.
    apply fmap_sublist, sublist_filter.
Qed.

Lemma remove_duplicates_threshold_monotone_witness :
  Dedup.articles
    (remove_duplicates Sample.exact_scorer
       [Sample.long_article; Sample.long_article; Sample.short_article] (85 # 100))
    `sublist_of`
  Dedup.articles
    (remove_duplicates Sample.exact_scorer
       [Sample.long_article; Sample.long_article; Sample.short_article] (1 # 1)) /\
  Dedup.articles
    (remove_duplicates Sample.exact_scorer
       [Sample.long_article; Sample.long_article; Sample.short_article] (1 # 1))
    `sublist_of` [Sample.long_article; Sample.long_article; Sample.short_article].
Proof.
  apply (remove_duplicates_threshold_monotone Sample.exact_scorer
           [Sample.long_article; Sample.long_article; Sample.short_article]
           (85 # 100) (1 # 1)).
  vm_compute. discriminate.
Defined.

End DedupMore.

(** * Further properties of the orchestrator *)

Module PipelineMore.

Import Pipeline Pipeline.NewsProcessor Spec RunNotions PipelineFacts.

(** Deduplication keeps something of a non-empty batch. *)
Lemma kept_nonempty (tfidf : scorer) (articles : list Article) (t : Q) :
  articles <> [] -> Dedup.articles (Dedup.remove_duplicates tfidf articles t) <> [].
Proof.
  intros Hne.
  destruct (DedupFacts.first_longest_exists articles Hne) as (m & a & Hfl).
  assert (Hkept := DedupFacts.first_longest_kept tfidf articles t m a Hfl).
  assert (Hin : a ∈ Dedup.articles (Dedup.remove_duplicates tfidf articles t)).
  { destruct (DedupFacts.remove_duplicates_split tfidf articles t) as [-> _].
    apply list_elem_of_fmap. exists (m, a). split; [reflexivity|].
    apply list_elem_of_filter. split; [exact Hkept|].
    apply DedupFacts.enumerate_lookup. exact (proj1 Hfl). }
  intros Hnil. rewrite Hnil in Hin. inversion Hin.
Qed.

Lemma deduplicated_extracted (env : Env) :
  deduplicated env
  = Dedup.articles
      (Dedup.remove_duplicates (tfidf_cosine env) (extracted env) (DUPLICATE_THRESHOLD env)).
Proof.
  unfold deduplicated, extracted.
  destruct (_fetch_articles env init) as [a1 p1].
  destruct (_extract_content env a1 p1) as [a2 p2]. reflexivity.
Qed.

Lemma deduplicated_nonempty (env : Env) :
  deduplicated env <> [] <-> extracted env <> [].
Proof.
  rewrite deduplicated_extracted. split.
  - intros H He. apply H. rewrite He. reflexivity.
  - apply kept_nonempty.
Qed.

(** The three ways a run ends. *)
Lemma run_cases (env : Env) :
  let r := (Pipeline.run_daily_pipeline env).1 in
  (fetched env = [] /\ status r = "error" /\
   error r = Some "No articles fetched from RSS feeds") \/
  (fetched env <> [] /\ deduplicated env = [] /\ status r = "error" /\
   error r = Some "No articles remaining after deduplication") \/
  (fetched env <> [] /\ deduplicated env <> [] /\ status r = "success" /\
   error r = None).
Proof.
  cbv zeta.
  assert (Hf : fetched env = [] \/ fetched env <> [])
    by (destruct (fetched env); [left; reflexivity | right; discriminate]).
  destruct Hf as [Hf | Hf].
  { left. split; [exact Hf|].
    revert Hf. unfold fetched, Pipeline.run_daily_pipeline.
    rewrite run_daily_pipeline_unfold.
    destruct (_fetch_articles env init) as [a1 p1]. simpl. intros ->.
    split; reflexivity. }
  right.
  assert (Hd : deduplicated env = [] \/ deduplicated env <> [])
    by (destruct (deduplicated env); [left; reflexivity | right; discriminate]).
  destruct Hd as [Hd | Hd].
  - left. split; [exact Hf|]. split; [exact Hd|].
    destruct (run_to_deduplication env)
      as (a1 & p1 & a2 & p2 & d & p3 & E1 & E2 & E3 & Hfe & Hde & _).
    unfold Pipeline.run_daily_pipeline. rewrite run_daily_pipeline_unfold, E1.
    rewrite Hfe in Hf. destruct a1 as [|a l]; [congruence|].
    rewrite E2, E3. rewrite Hde in Hd. rewrite Hd. split; reflexivity.
  - right. split; [exact Hf|]. split; [exact Hd|].
    destruct (run_past_checks env Hf Hd) as (Hs & He & _).
    split; assumption.
Qed.

(** X7.  A run succeeds exactly when the fetch and the extraction both
    hand on a non-empty batch: deduplication alone never ends a run.  The
    error message tells which of the two batches was empty. *)
Theorem run_status (env : Env) :
  let r := (Pipeline.run_daily_pipeline env).1 in
  (status r = "success" <-> fetched env <> [] /\ extracted env <> []) /\
  (status r = "error" <-> fetched env = [] \/ extracted env = []) /\
  (error r = Some "No articles fetched from RSS feeds" <-> fetched env = []) /\
  (error r = Some "No articles remaining after deduplication" <->
   fetched env <> [] /\ extracted env = []) /\
  (error r = None <-> status r = "success").
Proof.
  cbv zeta.
  pose proof (deduplicated_nonempty env) as Hde.
  assert (Hde' : deduplicated env = [] <-> extracted env = []).
  { split; intros H.
    - destruct (extracted env) eqn:E; [reflexivity|].
      exfalso. apply (proj2 Hde); [discriminate | exact H].
    - destruct (deduplicated env) eqn:E; [reflexivity|].
      exfalso. apply (proj1 Hde); [discriminate | exact H]. }
  destruct (run_cases env) as [(Hf & Hs & He) | [(Hf & Hd & Hs & He) | (Hf & Hd & Hs & He)]];
    rewrite Hs, He.
  - repeat split; intros; try discriminate; try reflexivity; intuition congruence.
  - apply Hde' in Hd.
    repeat split; intros; try discriminate; try reflexivity; intuition congruence.
  - apply Hde in Hd.
    repeat split; intros; try discriminate; try reflexivity; intuition congruence.
Qed.

(** *** The error list *)

Lemma prefix_snoc (l : list string) (x : string) : l `prefix_of` (l ++ [x])%list.
Proof. exists [x]. reflexivity. Qed.

Lemma fetch_grows (env : Env) : grows (_fetch_articles env).
Proof.
  intros p. unfold _fetch_articles. stage.
  destruct (fetch_all_sources env); simpl; [apply prefix_snoc | reflexivity].
Qed.

Lemma extract_grows (env : Env) (l : list Article) : grows (_extract_content env l).
Proof.
  intros p. unfold _extract_content. stage.
  destruct (extract_content_batch env l); simpl; [apply prefix_snoc | reflexivity].
Qed.

Lemma deduplicate_grows (env : Env) (l : list Article) :
  grows (_deduplicate_articles env l).
Proof. intros p. unfold _deduplicate_articles. stage. reflexivity. Qed.

Lemma summaries_grow (env : Env) (l : list Article) : grows (_generate_summaries env l).
Proof. intros p. unfold _generate_summaries. stage. reflexivity. Qed.

Lemma meta_summary_grows (env : Env) (l : list Article) :
  grows (_create_meta_summary env l).
Proof.
  intros p. unfold _create_meta_summary. stage.
  destruct (generate_meta_summary env l); simpl; [apply prefix_snoc | reflexivity].
Qed.

Lemma podcast_grows (env : Env) (meta : string) : grows (_generate_podcast env meta).
Proof.
  intros p. unfold _generate_podcast. stage.
  destruct (generate_podcast env meta) as [e|[pr|]]; simpl; try apply prefix_snoc.
  destruct (success pr); simpl; [|apply prefix_snoc].
  destruct (local_file pr); simpl; [|apply prefix_snoc].
  destruct (cloud_storage pr) as [c|]; simpl; [|reflexivity].
  destruct (cloud_success c); simpl; [|reflexivity].
  destruct (public_url c); simpl; [reflexivity | apply prefix_snoc].
Qed.

Lemma record_delivery_grows (tr : TelegramResult) : grows (record_delivery tr).
Proof.
  intros p. unfold record_delivery. stage.
  destruct (podcast_sent tr || text_sent tr); reflexivity.
Qed.

Lemma delivery_exception_grows (e : string) : grows (delivery_exception e).
Proof. intros p. unfold delivery_exception. stage. apply prefix_snoc. Qed.

Lemma send_telegram_grows (env : Env) (pr : option PodcastResult) (meta : string) :
  grows (_send_telegram env pr meta).
Proof.
  intros p. unfold _send_telegram. unfold mbind, M_bind, enter.
  set (p0 := {| stats := stats p; attempted := (attempted p ++ [Deliver])%list |}).
  change (errors (stats p)) with (errors (stats p0)).
  cbv zeta.
  destruct pr as [[[] file ? ? cloud]|].
  - match goal with |- context [if ?b then _ else _] => destruct b end;
      [apply delivery_exception_grows|].
    destruct file as [f|]; [|apply delivery_exception_grows].
    destruct (send_daily_podcast env f meta);
      [apply delivery_exception_grows | apply record_delivery_grows].
  - destruct (send_text_summary_sync env meta);
      [apply delivery_exception_grows | apply record_delivery_grows].
  - destruct (send_text_summary_sync env meta);
      [apply delivery_exception_grows | apply record_delivery_grows].
Qed.

(** X8.  The error list of the statistics is append-only across a run,
    also on a processor that has run before; the returned statistics are
    those of the processor; and when the result has an ['error'] entry, that
    message is the last one of the list. *)
Theorem run_errors_append_only (env : Env) (p : Processor) :
  let out := NewsProcessor.run_daily_pipeline env p in
  errors (stats p) `prefix_of` errors (statistics out.1) /\
  statistics out.1 = stats out.2 /\
  (forall msg, error out.1 = Some msg -> last (errors (statistics out.1)) = Some msg).
Proof.
  cbv zeta. rewrite run_daily_pipeline_unfold.
  pose proof (fetch_grows env p) as G1.
  destruct (_fetch_articles env p) as [a1 p1]. simpl in G1.
  assert (Hfin : forall msg q,
    errors (stats p) `prefix_of` errors (stats q) ->
    errors (stats p) `prefix_of` errors (statistics (_finish_with_error msg q).1) /\
    statistics (_finish_with_error msg q).1 = stats (_finish_with_error msg q).2 /\
    (forall m, error (_finish_with_error msg q).1 = Some m ->
               last (errors (statistics (_finish_with_error msg q).1)) = Some m)).
  { intros msg q Hq. unfold _finish_with_error. stage.
    split; [etransitivity; [exact Hq | apply prefix_snoc]|].
    split; [reflexivity|].
    intros m Hm. injection Hm as <-. apply last_snoc. }
  destruct a1 as [|a l]; [apply Hfin; exact G1|].
  pose proof (extract_grows env (a :: l) p1) as G2.
  destruct (_extract_content env (a :: l) p1) as [a2 p2]. simpl in G2.
  pose proof (deduplicate_grows env a2 p2) as G3.
  destruct (_deduplicate_articles env a2 p2) as [d p3]. simpl in G3.
  assert (H3 : errors (stats p) `prefix_of` errors (stats p3))
    by (etransitivity; [exact G1 | etransitivity; [exact G2 | exact G3]]).
  destruct (Dedup.articles d) as [|b k]; [apply Hfin; exact H3|].
  pose proof (summaries_grow env (b :: k) p3) as G4.
  destruct (_generate_summaries env (b :: k) p3) as [a4 p4]. simpl in G4.
  pose proof (meta_summary_grows env a4 p4) as G5.
  destruct (_create_meta_summary env a4 p4) as [ms p5]. simpl in G5.
  pose proof (podcast_grows env ms p5) as G6.
  destruct (_generate_podcast env ms p5) as [pr p6]. simpl in G6.
  pose proof (send_telegram_grows env pr ms p6) as G7.
  destruct (_send_telegram env pr ms p6) as [tr p7]. simpl in G7.
  unfold _finish_successfully. stage.
  split; [|split; [reflexivity | discriminate]].
  etransitivity; [exact H3|].
  etransitivity; [exact G4|]. etransitivity; [exact G5|].
  etransitivity; [exact G6|]. exact G7.
Qed.

(** *** The counters *)

Lemma meta_summary_keeps (env : Env) (l : list Article) : keeps (_create_meta_summary env l).
Proof.
  intros p. unfold _create_meta_summary. stage.
  destruct (generate_meta_summary env l); reflexivity.
Qed.

Lemma podcast_keeps (env : Env) (meta : string) : keeps (_generate_podcast env meta).
Proof.
  intros p. unfold _generate_podcast. stage.
  destruct (generate_podcast env meta) as [e|[pr|]]; simpl; try reflexivity.
  destruct (success pr); simpl; [|reflexivity].
  destruct (local_file pr); simpl; [|reflexivity].
  destruct (cloud_storage pr) as [c|]; simpl; [|reflexivity].
  destruct (cloud_success c); simpl; [|reflexivity].
  destruct (public_url c); reflexivity.
Qed.

Lemma send_telegram_keeps (env : Env) (pr : option PodcastResult) (meta : string) :
  keeps (_send_telegram env pr meta).
Proof.
  intros p. unfold _send_telegram, record_delivery, delivery_exception. stage.
  destruct pr as [[[] file ? ? cloud]|]; simpl.
  - match goal with |- context [if ?b then _ else _] => destruct b end; [reflexivity|].
    destruct file as [f|]; [|reflexivity].
    destruct (send_daily_podcast env f meta) as [|tr]; [reflexivity|].
    simpl. destruct (podcast_sent tr || text_sent tr); reflexivity.
  - destruct (send_text_summary_sync env meta) as [|[]]; reflexivity.
  - destruct (send_text_summary_sync env meta) as [|[]]; reflexivity.
Qed.

Lemma ai_filter_le (l : list Article) : length (List.filter is_ai_summary l) <= length l.
Proof. induction l as [|a l IH]; simpl; [lia|]. destruct (is_ai_summary a); simpl; lia. Qed.

Lemma content_filter_le (l : list Article) :
  length (List.filter (fun a => default false (extraction_successful a)) l) <= length l.
Proof.
  induction l as [|a l IH]; simpl; [lia|].
  destruct (default false (extraction_successful a)); simpl; lia.
Qed.

Lemma fetch_counts (env : Env) (p : Processor) :
  let out := _fetch_articles env p in
  out.1 <> [] ->
  counters (stats out.2)
  = (length out.1, articles_with_content (stats p),
     articles_after_deduplication (stats p), duplicates_removed (stats p),
     ai_summaries_generated (stats p)).
Proof.
  unfold _fetch_articles. stage.
  destruct (fetch_all_sources env); simpl; [congruence | reflexivity].
Qed.

Lemma extract_counts (env : Env) (l : list Article) (p : Processor) :
  let out := _extract_content env l p in
  articles_with_content (stats out.2)
    <= Nat.max (articles_with_content (stats p)) (length out.1) /\
  articles_fetched (stats out.2) = articles_fetched (stats p).
Proof.
  unfold _extract_content. stage.
  destruct (extract_content_batch env l) as [e|batch]; simpl.
  - split; [lia | reflexivity].
  - pose proof (content_filter_le batch). split; [lia | reflexivity].
Qed.

Lemma deduplicate_counts (env : Env) (l : list Article) (p : Processor) :
  let out := _deduplicate_articles env l p in
  out.1 = Dedup.remove_duplicates (tfidf_cosine env) l (DUPLICATE_THRESHOLD env) /\
  counters (stats out.2)
  = (articles_fetched (stats p), articles_with_content (stats p),
     length (Dedup.articles out.1),
     (Z.of_nat (length l) - Z.of_nat (length (Dedup.articles out.1)))%Z,
     ai_summaries_generated (stats p)).
Proof.
  unfold _deduplicate_articles.
  destruct (DedupMore.remove_duplicates_stats (tfidf_cosine env) l
              (DUPLICATE_THRESHOLD env)) as (_ & _ & Hdr).
  remember (Dedup.remove_duplicates (tfidf_cosine env) l (DUPLICATE_THRESHOLD env))
    as rd eqn:Hrd.
  stage. unfold counters. simpl. rewrite Hdr. split; reflexivity.
Qed.

Lemma summaries_counts (env : Env) (l : list Article) (p : Processor) :
  let out := _generate_summaries env l p in
  length out.1 = length l /\
  ai_summaries_generated (stats out.2) <= length l /\
  articles_fetched (stats out.2) = articles_fetched (stats p) /\
  articles_with_content (stats out.2) = articles_with_content (stats p) /\
  articles_after_deduplication (stats out.2) = articles_after_deduplication (stats p) /\
  duplicates_removed (stats out.2) = duplicates_removed (stats p).
Proof.
  unfold _generate_summaries. stage.
  unfold Summarizer.process_article_summaries.
  pose proof (ai_filter_le (map (Summarizer.summarize_article (summarizer env)) l)) as H.
  rewrite length_map in *. repeat split. exact H.
Qed.

(** X9.  The statistics of a successful run are consistent: the fetch
    counter is the size of the fetched batch; the articles processed, the
    articles after deduplication and the deduplicated batch agree; the
    extracted batch splits into those and the duplicates removed; and no
    more summaries or extractions are counted than there were articles. *)
Theorem run_success_statistics (env : Env) :
  let r := (Pipeline.run_daily_pipeline env).1 in
  status r = "success" ->
  articles_fetched (statistics r) = length (fetched env) /\
  articles_after_deduplication (statistics r) = length (deduplicated env) /\
  articles_processed r = Some (articles_after_deduplication (statistics r)) /\
  Z.of_nat (length (extracted env))
  = (Z.of_nat (articles_after_deduplication (statistics r))
     + duplicates_removed (statistics r))%Z /\
  (0 <= duplicates_removed (statistics r))%Z /\
  ai_summaries_generated (statistics r) <= articles_after_deduplication (statistics r) /\
  articles_with_content (statistics r) <= length (extracted env).
Proof.
  cbv zeta. intros Hs.
  destruct (run_cases env) as [(_ & Hs' & _) | [(_ & _ & Hs' & _) | (Hf & Hd & _)]];
    try (rewrite Hs' in Hs; discriminate).
  destruct (run_to_deduplication env)
    as (a1 & p1 & a2 & p2 & d & p3 & E1 & E2 & E3 & Hfe & Hde & _).
  assert (Hex : extracted env = a2).
  { unfold extracted. rewrite E1, E2. reflexivity. }
  pose proof (fetch_counts env init) as C1. rewrite E1 in C1. cbv zeta in C1.
  cbn [fst snd] in C1. rewrite <- Hfe in C1 at 1. specialize (C1 Hf).
  pose proof (extract_counts env a1 p1) as C2. rewrite E2 in C2.
  cbv zeta in C2. cbn [fst snd] in C2. destruct C2 as [C2 C2'].
  pose proof (deduplicate_counts env a2 p2) as C3. rewrite E3 in C3.
  cbv zeta in C3. cbn [fst snd] in C3. destruct C3 as [Hd1 C3].
  assert (Hsub : length (Dedup.articles d) <= length a2).
  { rewrite Hd1.
    destruct (DedupFacts.remove_duplicates_split (tfidf_cosine env) a2
                (DUPLICATE_THRESHOLD env)) as [-> _].
    rewrite length_fmap.
    etransitivity; [apply length_filter|].
    unfold Dedup.enumerate. rewrite length_zip_with, length_seq. lia. }
  unfold Pipeline.run_daily_pipeline. rewrite run_daily_pipeline_unfold, E1.
  rewrite Hfe in Hf. destruct a1 as [|a l]; [congruence|].
  rewrite E2, E3. rewrite Hde in Hd.
  destruct (Dedup.articles d) as [|b k] eqn:Ed; [congruence|].
  pose proof (summaries_counts env (b :: k) p3) as C4.
  destruct (_generate_summaries env (b :: k) p3) as [a4 p4].
  cbv zeta in C4. cbn [fst snd] in C4.
  destruct C4 as (L4 & A4 & F4 & W4 & D4 & R4).
  pose proof (meta_summary_keeps env a4 p4) as K5.
  destruct (_create_meta_summary env a4 p4) as [ms p5]. cbn [fst snd] in K5.
  pose proof (podcast_keeps env ms p5) as K6.
  destruct (_generate_podcast env ms p5) as [pr p6]. cbn [fst snd] in K6.
  pose proof (send_telegram_keeps env pr ms p6) as K7.
  destruct (_send_telegram env pr ms p6) as [tr p7]. cbn [fst snd] in K7.
  destruct (finish_successfully_effect a4 ms pr tr p7)
    as (_ & _ & Hap & _ & _ & Hst & _).
  cbv zeta in Hap, Hst. rewrite Hap, Hst.
  rewrite K6, K5 in K7. unfold counters in K7, C1, C3.
  injection K7 as K7a K7b K7c K7d K7e.
  injection C3 as C3a C3b C3c C3d C3e.
  injection C1 as C1a C1b C1c C1d C1e.
  rewrite Hfe, Hde, Hex, K7a, K7b, K7c, K7d, K7e, F4, W4, D4, R4, C3c, C3d.
  simpl in C1b. rewrite C1b in C2.
  simpl in *. rewrite L4, C3a, C2', C1a, C3b.
  repeat split; lia.
Qed.

Lemma run_success_statistics_witness :
  let r := (Pipeline.run_daily_pipeline
              (Sample.env (inr [Sample.long_article; Sample.long_article]) inr
                 Sample.offline (inr true))).1 in
  articles_fetched (statistics r)
  = length (fetched (Sample.env (inr [Sample.long_article; Sample.long_article]) inr
                       Sample.offline (inr true))) /\
  articles_after_deduplication (statistics r)
  = length (deduplicated (Sample.env (inr [Sample.long_article; Sample.long_article]) inr
                            Sample.offline (inr true))) /\
  articles_processed r = Some (articles_after_deduplication (statistics r)) /\
  Z.of_nat (length (extracted (Sample.env (inr [Sample.long_article; Sample.long_article])
                                 inr Sample.offline (inr true))))
  = (Z.of_nat (articles_after_deduplication (statistics r))
     + duplicates_removed (statistics r))%Z /\
  (0 <= duplicates_removed (statistics r))%Z /\
  ai_summaries_generated (statistics r) <= articles_after_deduplication (statistics r) /\
  articles_with_content (statistics r)
  <= length (extracted (Sample.env (inr [Sample.long_article; Sample.long_article]) inr
                          Sample.offline (inr true))).
Proof.
  apply (run_success_statistics
           (Sample.env (inr [Sample.long_article; Sample.long_article]) inr
              Sample.offline (inr true))).
  reflexivity.
Defined.

(** *** A successful run, stage by stage *)

Lemma run_trace (env : Env) :
  fetched env <> [] ->
  deduplicated env <> [] ->
  exists p1 p2 d p3 a4 p4 ms p5 pr p6 tr p7,
    _fetch_articles env init = (fetched env, p1) /\
    _extract_content env (fetched env) p1 = (extracted env, p2) /\
    _deduplicate_articles env (extracted env) p2 = (d, p3) /\
    Dedup.articles d = deduplicated env /\
    _generate_summaries env (deduplicated env) p3 = (a4, p4) /\
    _create_meta_summary env a4 p4 = (ms, p5) /\
    _generate_podcast env ms p5 = (pr, p6) /\
    _send_telegram env pr ms p6 = (tr, p7) /\
    Pipeline.run_daily_pipeline env = _finish_successfully a4 ms pr tr p7.
Proof.
  intros Hf Hd.
  destruct (run_to_deduplication env)
    as (a1 & p1 & a2 & p2 & d & p3 & E1 & E2 & E3 & Hfe & Hde & _).
  assert (Hex : extracted env = a2).
  { unfold extracted. rewrite E1, E2. reflexivity. }
  destruct (_generate_summaries env (deduplicated env) p3) as [a4 p4] eqn:E4.
  destruct (_create_meta_summary env a4 p4) as [ms p5] eqn:E5.
  destruct (_generate_podcast env ms p5) as [pr p6] eqn:E6.
  destruct (_send_telegram env pr ms p6) as [tr p7] eqn:E7.
  exists p1, p2, d, p3, a4, p4, ms, p5, pr, p6, tr, p7.
  rewrite Hfe, Hex, Hde in *.
  split; [exact E1|]. split; [exact E2|]. split; [exact E3|].
  split; [reflexivity|]. split; [exact E4|]. split; [exact E5|].
  split; [exact E6|]. split; [exact E7|].
  unfold Pipeline.run_daily_pipeline. rewrite run_daily_pipeline_unfold, E1.
  destruct a1 as [|a l]; [congruence|].
  rewrite E2, E3.
  destruct (Dedup.articles d) as [|b k] eqn:Ed; [congruence|].
  rewrite E4, E5, E6, E7. reflexivity.
Qed.

(** X10.  A failure of the whole extraction stage is not fatal: when the
    batch extractor raises on a non-empty fetch, the run goes on with the
    fetched articles as they are and succeeds; no extraction is counted and
    the failure is kept in the error list. *)
Theorem run_extraction_exception (env : Env) (e : string) :
  fetched env <> [] ->
  extract_content_batch env (fetched env) = inl e ->
  let r := (Pipeline.run_daily_pipeline env).1 in
  extracted env = fetched env /\
  status r = "success" /\
  articles_with_content (statistics r) = 0 /\
  ("Content extraction failed: " ++ e) ∈ errors (statistics r).
Proof.
  intros Hf He.
  assert (Hex : extracted env = fetched env).
  { unfold extracted, fetched in *.
    destruct (_fetch_articles env init) as [a1 p1]. simpl in *.
    unfold _extract_content. stage. rewrite He. reflexivity. }
  assert (Hd : deduplicated env <> []).
  { apply deduplicated_nonempty. rewrite Hex. exact Hf. }
  destruct (run_trace env Hf Hd)
    as (p1 & p2 & d & p3 & a4 & p4 & ms & p5 & pr & p6 & tr & p7 &
        E1 & E2 & E3 & Ed & E4 & E5 & E6 & E7 & Erun).
  cbv zeta. rewrite Erun.
  destruct (finish_successfully_effect a4 ms pr tr p7)
    as (Hs & _ & _ & _ & _ & Hst & _).
  cbv zeta in Hs, Hst. rewrite Hs, Hst.
  split; [exact Hex|]. split; [reflexivity|].
  (* the processor after the extraction stage *)
  assert (H2 : articles_with_content (stats p2) = 0 /\
               ("Content extraction failed: " ++ e) ∈ errors (stats p2)).
  { pose proof (fetch_counts env init) as C1. rewrite E1 in C1.
    cbv zeta in C1. cbn [fst snd] in C1. specialize (C1 Hf).
    unfold counters in C1. injection C1 as _ C1 _ _ _. simpl in C1.
    revert E2. unfold _extract_content. stage. rewrite He. simpl.
    intros E2. injection E2 as _ <-. simpl. split; [exact C1|].
    apply elem_of_app. right. left. }
  destruct H2 as [Hc2 He2].
  pose proof (deduplicate_counts env (extracted env) p2) as C3. rewrite E3 in C3.
  cbv zeta in C3. cbn [fst snd] in C3. destruct C3 as [_ C3].
  pose proof (summaries_counts env (deduplicated env) p3) as C4. rewrite E4 in C4.
  cbv zeta in C4. cbn [fst snd] in C4. destruct C4 as (_ & _ & _ & W4 & _).
  pose proof (meta_summary_keeps env a4 p4) as K5. rewrite E5 in K5.
  pose proof (podcast_keeps env ms p5) as K6. rewrite E6 in K6.
  pose proof (send_telegram_keeps env pr ms p6) as K7. rewrite E7 in K7.
  cbn [fst snd] in K5, K6, K7. rewrite K6, K5 in K7.
  unfold counters in K7, C3.
  injection K7 as _ K7 _ _ _. injection C3 as _ C3 _ _ _.
  split; [rewrite K7, W4, C3; exact Hc2|].
  pose proof (deduplicate_grows env (extracted env) p2) as G3. rewrite E3 in G3.
  pose proof (summaries_grow env (deduplicated env) p3) as G4. rewrite E4 in G4.
  pose proof (meta_summary_grows env a4 p4) as G5. rewrite E5 in G5.
  pose proof (podcast_grows env ms p5) as G6. rewrite E6 in G6.
  pose proof (send_telegram_grows env pr ms p6) as G7. rewrite E7 in G7.
  cbn [fst snd] in G3, G4, G5, G6, G7.
  assert (G : errors (stats p2) `prefix_of` errors (stats p7)).
  { etransitivity; [exact G3|]. etransitivity; [exact G4|].
    etransitivity; [exact G5|]. etransitivity; [exact G6|]. exact G7. }
  destruct G as [rest ->]. apply elem_of_app. left. exact He2.
Qed.

Lemma run_extraction_exception_witness :
  let env := Sample.env (inr [Sample.long_article])
               (fun _ => inl "'link'") Sample.offline (inr true) in
  let r := (Pipeline.run_daily_pipeline env).1 in
  extracted env = fetched env /\
  status r = "success" /\
  articles_with_content (statistics r) = 0 /\
  ("Content extraction failed: " ++ "'link'") ∈ errors (statistics r).
Proof.
  apply (run_extraction_exception
           (Sample.env (inr [Sample.long_article])
              (fun _ => inl "'link'") Sample.offline (inr true)) "'link'").
  - discriminate.
  - reflexivity.
Defined.

(** *** From the podcast to its delivery *)

(** X11.  Delivery follows the podcast stage without touching a missing
    key: when the stage hands on a successful podcast, its local file
    exists and is what [send_daily_podcast] is given; in every other case
    the text summary is sent instead. *)
Theorem podcast_then_delivery (env : Env) (meta : string) (p : Processor) :
  let g := _generate_podcast env meta p in
  let d := _send_telegram env g.1 meta g.2 in
  (forall pr, g.1 = Some pr -> success pr = true ->
     exists f, local_file pr = Some f /\ d.1 = audio_delivery env f meta) /\
  (forall pr, g.1 = Some pr -> success pr = false -> d.1 = text_delivery env meta) /\
  (g.1 = None -> d.1 = text_delivery env meta).
Proof.
  unfold _generate_podcast, _send_telegram, record_delivery, delivery_exception,
    audio_delivery, text_delivery.
  stage.
  destruct (generate_podcast env meta) as [e|[[ok file mins mb cloud]|]]; simpl.
  - repeat split; try discriminate.
    intros _. destruct (send_text_summary_sync env meta) as [|[]]; reflexivity.
  - destruct ok; simpl.
    + destruct file as [f|]; simpl.
      * destruct cloud as [[cok url name]|]; simpl.
        -- destruct cok; simpl.
           ++ destruct url as [u|]; simpl.
              ** repeat split; try discriminate.
                 --- intros pr Hpr _. injection Hpr as <-. exists f. split; [reflexivity|].
                     simpl. destruct (send_daily_podcast env f meta) as [|tr]; [reflexivity|].
                     simpl. destruct (podcast_sent tr || text_sent tr); reflexivity.
                 --- intros pr Hpr Hs. injection Hpr as <-. discriminate.
              ** repeat split; try discriminate.
                 intros _. destruct (send_text_summary_sync env meta) as [|[]]; reflexivity.
           ++ repeat split; try discriminate.
              --- intros pr Hpr _. injection Hpr as <-. exists f. split; [reflexivity|].
                  simpl. destruct (send_daily_podcast env f meta) as [|tr]; [reflexivity|].
                  simpl. destruct (podcast_sent tr || text_sent tr); reflexivity.
              --- intros pr Hpr Hs. injection Hpr as <-. discriminate.
        -- repeat split; try discriminate.
           --- intros pr Hpr _. injection Hpr as <-. exists f. split; [reflexivity|].
               simpl. destruct (send_daily_podcast env f meta) as [|tr]; [reflexivity|].
               simpl. destruct (podcast_sent tr || text_sent tr); reflexivity.
           --- intros pr Hpr Hs. injection Hpr as <-. discriminate.
      * repeat split; try discriminate.
        intros _. destruct (send_text_summary_sync env meta) as [|[]]; reflexivity.
    + repeat split; try discriminate.
      * intros pr Hpr Hs. injection Hpr as <-. discriminate.
      * intros pr Hpr _. injection Hpr as <-. simpl.
        destruct (send_text_summary_sync env meta) as [|[]]; reflexivity.
  - repeat split; try discriminate.
    intros _. destruct (send_text_summary_sync env meta) as [|[]]; reflexivity.
Qed.

(** The cases in which the generator reported no success. *)
Ltac no_success :=
  split; split; intros H;
  first [ discriminate H
        | destruct H as [H _]; discriminate H
        | destruct H as (? & H & _); discriminate H
        | destruct H as (? & H & Hs & _); injection H as <-; discriminate Hs
        | destruct H as (? & H & Hs); injection H as <-; discriminate Hs ].

(** X12.  [podcast_created] records what the generator reported, not what
    the stage hands on: it is raised exactly when the generator returned a
    result with ['success'], while the stage still returns nothing when
    that result lacks ['local_file'], or lacks ['public_url'] after a
    successful upload.  Only then do the flag and the returned podcast
    disagree. *)
Theorem podcast_created_flag (env : Env) (meta : string) (p : Processor) :
  podcast_created (stats p) = false ->
  let g := _generate_podcast env meta p in
  (podcast_created (stats g.2) = true <->
   exists pr, generate_podcast env meta = inr (Some pr) /\ success pr = true) /\
  (podcast_created (stats g.2) = true /\ g.1 = None <->
   exists pr, generate_podcast env meta = inr (Some pr) /\ success pr = true /\
     (local_file pr = None \/
      exists c, cloud_storage pr = Some c /\ cloud_success c = true /\
                public_url c = None)).
Proof.
  intros Hp. unfold _generate_podcast. stage.
  destruct (generate_podcast env meta) as [e|[[ok file mins mb cloud]|]]; simpl.
  - rewrite Hp. no_success.
  - destruct ok; simpl.
    + destruct file as [f|]; simpl.
      * destruct cloud as [[cok url name]|]; simpl.
        -- destruct cok; simpl.
           ++ destruct url as [u|]; simpl.
              ** split; split.
                 --- intros _. eexists. split; reflexivity.
                 --- reflexivity.
                 --- intros [_ H]. discriminate.
                 --- intros (pr & H & _ & [Hl | (c & Hc & Hs & Hu)]);
                   injection H as <-; simpl in *; [congruence|];
                   try discriminate Hc; injection Hc as <-; simpl in *; congruence.
              ** split; split.
                 --- intros _. eexists. split; reflexivity.
                 --- reflexivity.
                 --- intros _. eexists. split; [reflexivity|]. split; [reflexivity|].
                     right. eexists. repeat split.
                 --- intros _. split; reflexivity.
           ++ split; split.
              --- intros _. eexists. split; reflexivity.
              --- reflexivity.
              --- intros [_ H]. discriminate.
              --- intros (pr & H & _ & [Hl | (c & Hc & Hs & Hu)]);
                   injection H as <-; simpl in *; [congruence|];
                   try discriminate Hc; injection Hc as <-; simpl in *; congruence.
        -- split; split.
           --- intros _. eexists. split; reflexivity.
           --- reflexivity.
           --- intros [_ H]. discriminate.
           --- intros (pr & H & _ & [Hl | (c & Hc & Hs & Hu)]);
                   injection H as <-; simpl in *; [congruence|];
                   try discriminate Hc; injection Hc as <-; simpl in *; congruence.
      * split; split.
        --- intros _. eexists. split; reflexivity.
        --- reflexivity.
        --- intros _. eexists. split; [reflexivity|]. split; [reflexivity|].
            left. reflexivity.
        --- intros _. split; reflexivity.
    + rewrite Hp. no_success.
  - rewrite Hp. no_success.
Qed.

Lemma podcast_created_flag_witness :
  let env :=
    {| fetch_all_sources := inr [];
       extract_content_batch := inr;
       DUPLICATE_THRESHOLD := 8 # 10;
       tfidf_cosine := Sample.exact_scorer;
       summarizer := Sample.offline;
       generate_meta_summary := fun _ => inr "Today in the news.";
       today := "November 03, 2026";
       generate_podcast := fun _ =>
         inr (Some {| success := true; local_file := None;
                      duration_minutes := None; file_size_mb := None;
                      cloud_storage := None |});
       send_daily_podcast := fun _ _ => inl "no chat configured";
       send_text_summary_sync := fun _ => inr true |} in
  let g := _generate_podcast env "Today in the news." init in
  (podcast_created (stats g.2) = true <->
   exists pr, generate_podcast env "Today in the news." = inr (Some pr) /\
              success pr = true) /\
  (podcast_created (stats g.2) = true /\ g.1 = None <->
   exists pr, generate_podcast env "Today in the news." = inr (Some pr) /\
     success pr = true /\
     (local_file pr = None \/
      exists c, cloud_storage pr = Some c /\ cloud_success c = true /\
                public_url c = None)).
Proof.
  intros env.
  apply (podcast_created_flag env "Today in the news." init).
  reflexivity.
Defined.

(** *** The HTTP handler *)

(** X13.  [process_daily_news] answers 200 or 500, and 200 exactly when the
    configuration loads and the run passes both fatal checks; a failed
    delivery or a degraded stage still answers 200. *)
Theorem process_daily_news_code (config : result Env) :
  let out := Main.process_daily_news config in
  (out.2 = 200 \/ out.2 = 500) /\
  (out.2 = 200 <->
   exists env, config = inr env /\ fetched env <> [] /\ extracted env <> []) /\
  (forall env, config = inr env ->
     out.1 = Main.RunBody (Pipeline.run_daily_pipeline env).1).
Proof.
  unfold Main.process_daily_news.
  destruct config as [e|env]; cbv zeta; cbn [fst snd].
  - split; [right; reflexivity|]. split; [|discriminate].
    split; [discriminate | intros (env & H & _); discriminate].
  - pose proof (deduplicated_nonempty env) as Hde.
    split; [|split; [|intros env' H; injection H as <-; reflexivity]].
    + destruct (String.eqb _ _); [left | right]; reflexivity.
    + destruct (run_cases env)
        as [(Hf & Hs & _) | [(Hf & Hd & Hs & _) | (Hf & Hd & Hs & _)]];
        cbv zeta in Hs; rewrite Hs; simpl.
      * split; [discriminate|]. intros (env' & H & Hf' & _).
        injection H as <-. congruence.
      * split; [discriminate|]. intros (env' & H & _ & He).
        injection H as <-. apply Hde in He. congruence.
      * split; [|reflexivity]. intros _. exists env.
        split; [reflexivity|]. split; [exact Hf | apply Hde; exact Hd].
Qed.

End PipelineMore.

(** * Further properties of the summariser *)

Module SummarizerMore.

Import Summarizer.

(** *** Lengths *)








(** *** Splitting into sentences *)

Lemma append_nil_r (s : string) : s ++ "" = s.
Proof.
  induction s as [|c s IH]; [reflexivity|].
  change (String c (s ++ "") = String c s). f_equal. exact IH.
Qed.

Lemma rev_app_append (a b s : string) :
  String.rev_app a b ++ s = String.rev_app a (b ++ s).
Proof.
  revert b. induction a as [|c a IH]; intros b; [reflexivity|].
  cbn [String.rev_app]. rewrite IH. reflexivity.
Qed.

Lemma rev_cons_append (c : ascii) (cur s : string) :
  String.rev (String c cur) ++ s = String.rev cur ++ String c s.
Proof. unfold String.rev. cbn [String.rev_app]. rewrite !rev_app_append. reflexivity. Qed.






(** *** Summarising a batch *)

(** X16.  [process_article_summaries] keeps the batch in length and order
    and changes nothing but ['ai_summary'], which every article has
    afterwards.  An article without text never reaches the model: it gets
    its feed summary, or the placeholder when it has none. *)
Theorem process_article_summaries_fields (summarizer : AISummarizer)
    (articles : list Article) :
  let out := process_article_summaries summarizer articles in
  length out = length articles /\
  forall i a, articles !! i = Some a ->
    exists b,
      out !! i = Some b /\
      title b = title a /\ link b = link a /\ source b = source a /\
      summary b = summary a /\ full_text b = full_text a /\
      extraction_successful b = extraction_successful a /\
      is_Some (ai_summary b) /\
      (get (full_text a) "" = "" ->
       ai_summary b = Some (get (summary a) "No content available for summarization")).
Proof.
  unfold process_article_summaries. cbv zeta. split; [apply length_map|].
  intros i a Ha. exists (summarize_article summarizer a).
  split; [rewrite list_lookup_fmap, Ha; reflexivity|].
  unfold summarize_article. cbv zeta. simpl.
  repeat split; try reflexivity; [eexists; reflexivity|].
  intros ->. reflexivity.
Qed.

End SummarizerMore.

(** * Properties of the fetcher and the extractor *)

Module FetchFacts.

Import Rss Extractor FetchNotions.

(** *** Sources are fetched one by one *)

Section Fetching.

Variable parse : feedparser.

Lemma fetch_source_acc (acc : list Article) (item : string * SourceInfo) :
  fetch_source parse acc item = (acc ++ fetch_source parse [] item)%list.
Proof.
  unfold fetch_source. destruct (default true (enabled item.2)).
  - reflexivity.
  - rewrite app_nil_r. reflexivity.
Qed.

Lemma fetch_fold (acc : list Article) (cfg : list (string * SourceInfo)) :
  foldl (fetch_source parse) acc cfg = (acc ++ fetch_all_sources parse cfg)%list.
Proof.
  unfold fetch_all_sources. revert acc.
  induction cfg as [|item cfg IH]; intros acc; cbn [foldl].
  - rewrite app_nil_r. reflexivity.
  - rewrite IH, (IH (fetch_source parse [] item)), fetch_source_acc.
    rewrite <- app_assoc. reflexivity.
Qed.

Lemma fetch_all_sources_cons (item : string * SourceInfo)
    (cfg : list (string * SourceInfo)) :
  fetch_all_sources parse (item :: cfg)
  = (fetch_source parse [] item ++ fetch_all_sources parse cfg)%list.
Proof. unfold fetch_all_sources at 1. cbn [foldl]. apply fetch_fold. Qed.

Lemma fetch_all_sources_split (a b : list (string * SourceInfo)) :
  fetch_all_sources parse (a ++ b)
  = (fetch_all_sources parse a ++ fetch_all_sources parse b)%list.
Proof.
  unfold fetch_all_sources at 1. rewrite foldl_app.
  fold (fetch_all_sources parse a). apply fetch_fold.
Qed.

Lemma skipped_source_empty (name : string) (info : SourceInfo) :
  skipped parse info -> fetch_source parse [] (name, info) = [].
Proof.
  unfold skipped, fetch_source, fetch_rss_feed. cbn [fst snd].
  intros [H | [H | (url & e & H1 & H2)]].
  - rewrite H. reflexivity.
  - rewrite H. destruct (default true (enabled info)); reflexivity.
  - rewrite H1, H2. destruct (default true (enabled info)); reflexivity.
Qed.

Lemma slice_to_length {A} (m : Z) (l : list A) :
  (0 <= m)%Z -> length (slice_to m l) <= Z.to_nat m.
Proof.
  intros Hm. unfold slice_to.
  destruct (Z.leb_spec 0 m); [|lia].
  rewrite length_take. lia.
Qed.

Lemma fetch_source_length (item : string * SourceInfo) :
  (0 <= default 50 (max_articles item.2))%Z ->
  length (fetch_source parse [] item) <= cap item.
Proof.
  intros Hm. unfold fetch_source, cap, fetch_rss_feed.
  destruct (default true (enabled item.2)); [|simpl; lia].
  cbn [app].
  destruct (rss item.2) as [url|]; [|simpl; lia].
  destruct (parse url) as [e|entries]; [simpl; lia|].
  cbv zeta. rewrite length_map. apply slice_to_length. exact Hm.
Qed.

Lemma fetched_links (cfg : list (string * SourceInfo)) (a : Article) :
  a ∈ fetch_all_sources parse cfg -> is_Some (link a).
Proof.
  induction cfg as [|[name info] cfg IH].
  - intros H. inversion H.
  - rewrite fetch_all_sources_cons. intros H. apply elem_of_app in H.
    destruct H as [H | H]; [|exact (IH H)].
    revert H. unfold fetch_source, fetch_rss_feed. cbn [fst snd app].
    destruct (default true (enabled info)); [|intros H; inversion H].
    destruct (rss info) as [url|]; [|intros H; inversion H].
    destruct (parse url) as [e|entries]; [intros H; inversion H|].
    cbv zeta. intros H. apply list_elem_of_fmap in H.
    destruct H as (entry & -> & _). eexists; reflexivity.
Qed.

(** X17.  The batch of a configuration is the batch of its first sources
    followed by the batch of the remaining ones: the articles of a source
    do not depend on the sources around it, and they come in the order of
    the configuration. *)
Theorem fetch_all_sources_app (a b : list (string * SourceInfo)) :
  fetch_all_sources parse (a ++ b)
  = (fetch_all_sources parse a ++ fetch_all_sources parse b)%list.
Proof.
  unfold fetch_all_sources at 1. rewrite foldl_app.
  fold (fetch_all_sources parse a). apply fetch_fold.
Qed.

(** X18.  A source that is disabled, has no ['rss'] entry, or whose feed
    raises while it is parsed, is passed over: the batch is the one fetched
    from the configuration without that source. *)
Theorem skipped_source_is_passed_over (before after : list (string * SourceInfo))
    (name : string) (info : SourceInfo) :
  skipped parse info ->
  fetch_all_sources parse (before ++ (name, info) :: after)
  = fetch_all_sources parse (before ++ after).
Proof.
  intros Hs.
  rewrite !fetch_all_sources_split, fetch_all_sources_cons.
  rewrite (skipped_source_empty name info Hs). reflexivity.
Qed.

(** X19.  Every fetched article names an enabled source of the
    configuration that has a feed address, carries a title, a link and a
    summary (empty strings when the entry lacks them), and has neither
    extracted text nor a generated summary yet. *)
Theorem fetched_article_shape (cfg : list (string * SourceInfo)) (a : Article) :
  a ∈ fetch_all_sources parse cfg ->
  exists name info,
    (name, info) ∈ cfg /\ enabled info <> Some false /\ is_Some (rss info) /\
    source a = Some name /\
    is_Some (title a) /\ is_Some (link a) /\ is_Some (summary a) /\
    full_text a = None /\ extraction_successful a = None /\ ai_summary a = None.
Proof.
  induction cfg as [|[name info] cfg IH].
  - intros H. inversion H.
  - rewrite fetch_all_sources_cons. intros H. apply elem_of_app in H.
    destruct H as [H | H].
    + exists name, info. split; [left|].
      revert H. unfold fetch_source, fetch_rss_feed. cbn [fst snd app].
      destruct (enabled info) as [[]|] eqn:En; cbn [default];
        try (intros H; inversion H; fail).
      all: destruct (rss info) as [url|]; try (intros H; inversion H; fail).
      all: destruct (parse url) as [e|entries]; try (intros H; inversion H; fail).
      all: cbv zeta; intros H; apply list_elem_of_fmap in H.
      all: destruct H as (entry & -> & _); cbn.
      all: repeat split; try discriminate; eexists; reflexivity.
    + destruct (IH H) as (n & i & Hin & Hrest).
      exists n, i. split; [right; exact Hin | exact Hrest].
Qed.

(** X20.  When no configured limit is negative, the batch is no longer
    than the limits of the enabled sources added up, where a source
    without [max_articles] has the limit 50. *)
Theorem fetch_all_sources_bound (cfg : list (string * SourceInfo)) :
  (forall item, item ∈ cfg -> (0 <= default 50 (max_articles item.2))%Z) ->
  length (fetch_all_sources parse cfg) <= list_sum (cap <$> cfg).
Proof.
  induction cfg as [|item cfg IH]; intros Hcap.
  - simpl. lia.
  - rewrite fetch_all_sources_cons, length_app, fmap_cons.
    change (list_sum (cap item :: (cap <$> cfg)))
      with (cap item + list_sum (cap <$> cfg)).
    pose proof (fetch_source_length item (Hcap item ltac:(left))) as H1.
    assert (H2 : length (fetch_all_sources parse cfg) <= list_sum (cap <$> cfg)).
    { apply IH. intros i Hi. apply Hcap. right. exact Hi. }
    lia.
Qed.

End Fetching.

Lemma skipped_source_is_passed_over_witness :
  fetch_all_sources Wiring.sample_feed
    ([("example", {| rss := Some "https://example.org/feed"; enabled := None;
                     max_articles := Some 2%Z; categories := None |})]
     ++ ("broken", {| rss := Some "https://example.org/none"; enabled := Some true;
                      max_articles := None; categories := None |}) :: [])
  = fetch_all_sources Wiring.sample_feed
      ([("example", {| rss := Some "https://example.org/feed"; enabled := None;
                       max_articles := Some 2%Z; categories := None |})] ++ []).
Proof.
  apply (skipped_source_is_passed_over Wiring.sample_feed).
  right. right. exists "https://example.org/none", "connection refused".
  split; reflexivity.
Defined.

Lemma fetched_article_shape_witness :
  exists name info,
    (name, info) ∈ Wiring.sample_sources /\ enabled info <> Some false /\
    is_Some (rss info) /\
    source (news_item "example"
              {| entry_title := Some "Rain"; entry_link := Some "https://example.org/2";
                 entry_published := None; entry_summary := None |}) = Some name /\
    is_Some (title (news_item "example"
              {| entry_title := Some "Rain"; entry_link := Some "https://example.org/2";
                 entry_published := None; entry_summary := None |})) /\
    is_Some (link (news_item "example"
              {| entry_title := Some "Rain"; entry_link := Some "https://example.org/2";
                 entry_published := None; entry_summary := None |})) /\
    is_Some (summary (news_item "example"
              {| entry_title := Some "Rain"; entry_link := Some "https://example.org/2";
                 entry_published := None; entry_summary := None |})) /\
    full_text (news_item "example"
              {| entry_title := Some "Rain"; entry_link := Some "https://example.org/2";
                 entry_published := None; entry_summary := None |}) = None /\
    extraction_successful (news_item "example"
              {| entry_title := Some "Rain"; entry_link := Some "https://example.org/2";
                 entry_published := None; entry_summary := None |}) = None /\
    ai_summary (news_item "example"
              {| entry_title := Some "Rain"; entry_link := Some "https://example.org/2";
                 entry_published := None; entry_summary := None |}) = None.
Proof.
  apply (fetched_article_shape Wiring.sample_feed Wiring.sample_sources).
  vm_compute. right. left.
Defined.

Lemma fetch_all_sources_bound_witness :
  length (fetch_all_sources Wiring.sample_feed Wiring.sample_sources)
  <= list_sum (cap <$> Wiring.sample_sources).
Proof.
  apply (fetch_all_sources_bound Wiring.sample_feed Wiring.sample_sources).
  intros item Hi.
  repeat (apply elem_of_cons in Hi; destruct Hi as [-> | Hi]; [vm_compute; discriminate|]).
  inversion Hi.
Defined.

End FetchFacts.

(** * Properties of the extraction of a batch *)

Module ExtractFacts.

Import Rss Extractor FetchNotions.

Section Extraction.

Variable download : newspaper.

(** The article the loop appends for [a]. *)
Lemma enrich_fields (a : Article) (url : string) :
  link a = Some url ->
  let b := enrich a (extract_article_content download url) in
  title b = title a /\ link b = link a /\ source b = source a /\
  summary b = summary a /\ ai_summary b = ai_summary a /\
  extraction_successful b = Some (downloads download a) /\
  is_Some (full_text b) /\
  (downloads download a = false -> full_text b = Some "").
Proof.
  intros Hl. unfold downloads, extract_article_content. rewrite Hl.
  destruct (download url) as [e|text]; cbn;
    (split; [reflexivity|]); (split; [exact Hl|]); (split; [reflexivity|]);
    (split; [reflexivity|]); (split; [reflexivity|]); (split; [reflexivity|]);
    (split; [eexists; reflexivity|]); intros H; [reflexivity | discriminate].
Qed.

Lemma batch_loop_raises (acc articles : list Article) (a : Article) :
  a ∈ articles -> link a = None ->
  batch_loop download acc articles = inl "'link'".
Proof.
  intros Hin Hl. revert acc.
  induction articles as [|b rest IH]; intros acc; [inversion Hin|].
  cbn [batch_loop]. destruct (link b) as [url|] eqn:Hb; [|reflexivity].
  apply elem_of_cons in Hin. destruct Hin as [-> | Hin]; [congruence|].
  cbv zeta. apply IH. exact Hin.
Qed.

Lemma batch_loop_returns (acc articles : list Article) :
  (forall a, a ∈ articles -> is_Some (link a)) ->
  exists out,
    batch_loop download acc articles = inr (acc ++ out)%list /\
    length out = length articles /\
    forall i a, articles !! i = Some a ->
      exists url, link a = Some url /\
        out !! i = Some (enrich a (extract_article_content download url)).
Proof.
  revert acc. induction articles as [|b rest IH]; intros acc Hall.
  - exists []. rewrite app_nil_r. split; [reflexivity|]. split; [reflexivity|].
    intros i a H. rewrite lookup_nil in H. discriminate.
  - destruct (Hall b ltac:(left)) as [url Hb].
    cbn [batch_loop]. rewrite Hb. cbv zeta.
    destruct (IH (acc ++ [enrich b (extract_article_content download url)])%list)
      as (out & E & L & F).
    { intros a Ha. apply Hall. right. exact Ha. }
    exists (enrich b (extract_article_content download url) :: out).
    split; [|split].
    + rewrite E, <- app_assoc. reflexivity.
    + simpl. rewrite L. reflexivity.
    + intros [|i] a H; simpl in H.
      * injection H as <-. exists url. split; [exact Hb | reflexivity].
      * apply F. exact H.
Qed.

Lemma all_links_or_not (articles : list Article) :
  (forall a, a ∈ articles -> is_Some (link a)) \/
  (exists a, a ∈ articles /\ link a = None).
Proof.
  induction articles as [|b rest [IH | (a & Ha & Hl)]].
  - left. intros a H. inversion H.
  - destruct (link b) as [url|] eqn:Hb.
    + left. intros a H. apply elem_of_cons in H. destruct H as [-> | H].
      * rewrite Hb. eexists; reflexivity.
      * apply IH. exact H.
    + right. exists b. split; [left | exact Hb].
  - right. exists a. split; [right; exact Ha | exact Hl].
Qed.

(** X21.  The extraction of a batch raises exactly when an article of
    the batch has no ['link'] entry, and then with the [KeyError] of that
    key; a page that cannot be downloaded never makes it raise. *)
Theorem extract_content_batch_raises (articles : list Article) :
  ((exists e, extract_content_batch download articles = inl e) <->
   (exists a, a ∈ articles /\ link a = None)) /\
  (forall e, extract_content_batch download articles = inl e -> e = "'link'").
Proof.
  unfold extract_content_batch.
  destruct (all_links_or_not articles) as [Hall | (a & Ha & Hl)].
  - destruct (batch_loop_returns [] articles Hall) as (out & E & _).
    rewrite E. split; [split|].
    + intros [e He]. discriminate.
    + intros (a & Ha & Hl). destruct (Hall a Ha) as [url Hu]. congruence.
    + intros e He. discriminate.
  - rewrite (batch_loop_raises [] articles a Ha Hl). split; [split|].
    + intros _. exists a. split; assumption.
    + intros _. eexists; reflexivity.
    + intros e He. injection He as <-. reflexivity.
Qed.

(** X22.  When the extraction of a batch returns, it returns one article
    for each article of the batch, in the same order, with title, link,
    source, summary and generated summary as they were; each carries the
    flag [extraction_successful], true exactly when its page was
    extracted, and a [full_text], which is empty when it was not. *)
Theorem extract_content_batch_fields (articles out : list Article) :
  extract_content_batch download articles = inr out ->
  length out = length articles /\
  forall i a, articles !! i = Some a ->
    exists b, out !! i = Some b /\
      title b = title a /\ link b = link a /\ source b = source a /\
      summary b = summary a /\ ai_summary b = ai_summary a /\
      extraction_successful b = Some (downloads download a) /\
      is_Some (full_text b) /\
      (downloads download a = false -> full_text b = Some "").
Proof.
  unfold extract_content_batch. intros Hout.
  destruct (all_links_or_not articles) as [Hall | (a & Ha & Hl)].
  - destruct (batch_loop_returns [] articles Hall) as (out' & E & L & F).
    rewrite E in Hout. injection Hout as <-. cbn [app].
    split; [exact L|].
    intros i a Hi. destruct (F i a Hi) as (url & Hu & Ho).
    eexists. split; [exact Ho|]. apply enrich_fields. exact Hu.
  - rewrite (batch_loop_raises [] articles a Ha Hl) in Hout. discriminate.
Qed.

(** X23.  On the batch of the fetcher the extraction does not raise,
    whatever the feeds and the pages are: it returns a batch of the same
    length. *)
Theorem extraction_of_fetched (parse : feedparser)
    (cfg : list (string * SourceInfo)) :
  exists out,
    extract_content_batch download (fetch_all_sources parse cfg) = inr out /\
    length out = length (fetch_all_sources parse cfg).
Proof.
  unfold extract_content_batch.
  destruct (batch_loop_returns [] (fetch_all_sources parse cfg)) as (out & E & L & _).
  - intros a Ha.
    destruct (FetchFacts.fetched_links parse cfg a Ha) as [url ->].
    eexists; reflexivity.
  - exists out. split; [exact E | exact L].
Qed.

End Extraction.

Lemma extract_content_batch_fields_witness :
  length [ enrich (news_item "example"
                     {| entry_title := Some "Rates"; entry_link := Some "https://example.org/1";
                        entry_published := None; entry_summary := Some "Rates rise." |})
             {| content_full_text := "Rates rise again today";
                content_extraction_successful := true |};
           enrich (news_item "example"
                     {| entry_title := Some "Rain"; entry_link := Some "https://example.org/2";
                        entry_published := None; entry_summary := None |})
             {| content_full_text := ""; content_extraction_successful := false |} ]
  = length (fetch_all_sources Wiring.sample_feed Wiring.sample_sources) /\
  forall i a, fetch_all_sources Wiring.sample_feed Wiring.sample_sources !! i = Some a ->
    exists b,
      [ enrich (news_item "example"
                  {| entry_title := Some "Rates"; entry_link := Some "https://example.org/1";
                     entry_published := None; entry_summary := Some "Rates rise." |})
          {| content_full_text := "Rates rise again today";
             content_extraction_successful := true |};
        enrich (news_item "example"
                  {| entry_title := Some "Rain"; entry_link := Some "https://example.org/2";
                     entry_published := None; entry_summary := None |})
          {| content_full_text := ""; content_extraction_successful := false |} ] !! i
      = Some b /\
      title b = title a /\ link b = link a /\ source b = source a /\
      summary b = summary a /\ ai_summary b = ai_summary a /\
      extraction_successful b = Some (downloads Wiring.sample_site a) /\
      is_Some (full_text b) /\
      (downloads Wiring.sample_site a = false -> full_text b = Some "").
Proof.
  apply (extract_content_batch_fields Wiring.sample_site).
  reflexivity.
Defined.

End ExtractFacts.

(** * Properties of the delivery *)

Module DeliveryFacts.

Import Pipeline Telegram.

Lemma sync_unavailable (sender : TelegramSender) (file summary : string) :
  telegram_available sender = false ->
  send_podcast_sync sender file = false /\
  send_text_summary_sync sender summary = false.
Proof.
  intros H. unfold send_podcast_sync, send_text_summary_sync. rewrite H.
  split; reflexivity.
Qed.

Lemma send_daily_podcast_unavailable (sender : TelegramSender) (file : string)
    (summary_text : option string) :
  telegram_available sender = false ->
  let r := send_daily_podcast sender file summary_text in
  podcast_sent r = false /\ text_sent r = false /\
  primary_method r = Some "failed".
Proof.
  intros H. unfold send_daily_podcast.
  destruct (sync_unavailable sender file (default "" summary_text) H) as [-> ->].
  cbv zeta. destruct (truthy (default "" summary_text)); repeat split.
Qed.

(** X24.  The report of [send_daily_podcast]: the audio is reported sent
    exactly when its upload succeeded; the text is reported sent exactly
    when the upload failed, a non-empty summary was given and sending it
    succeeded; so never both.  [primary_method] names what went through,
    ['failed'] when nothing did; the report carries an error exactly when
    the upload failed and there was no summary to fall back on; and
    without credentials nothing is sent. *)
Theorem send_daily_podcast_report (sender : TelegramSender) (file : string)
    (summary_text : option string) :
  let r := send_daily_podcast sender file summary_text in
  let summary := default "" summary_text in
  (podcast_sent r = true <-> send_podcast_sync sender file = true) /\
  (text_sent r = true <->
   send_podcast_sync sender file = false /\ summary <> "" /\
   send_text_summary_sync sender summary = true) /\
  podcast_sent r && text_sent r = false /\
  primary_method r
  = Some (if podcast_sent r then "audio" else if text_sent r then "text" else "failed") /\
  (is_Some (telegram_error r) <->
   send_podcast_sync sender file = false /\ summary = "") /\
  (telegram_available sender = false -> podcast_sent r = false /\ text_sent r = false).
Proof.
  cbv zeta.
  split; [|split; [|split; [|split; [|split]]]].
  6: { intros H. destruct (send_daily_podcast_unavailable sender file summary_text H)
         as (H1 & H2 & _). split; assumption. }
  all: unfold send_daily_podcast; cbv zeta.
  all: destruct (send_podcast_sync sender file) eqn:Ep; cbn.
  all: try (destruct (default "" summary_text) as [|c s] eqn:Es; cbn).
  all: try (destruct (send_text_summary_sync sender (String c s)) eqn:Et; cbn).
  all: try reflexivity.
  all: split; try (intros (? & ? & ?)); try (intros (? & ?)); try intros ?;
       try discriminate; try congruence; try (eexists; reflexivity);
       try (repeat split; congruence).
  all: try (match goal with H : is_Some None |- _ => destruct H; discriminate end).
Qed.

End DeliveryFacts.

(** * Properties of a run on the fetcher, the extractor and the sender *)

Module WiringFacts.

Import Pipeline Pipeline.NewsProcessor Spec RunNotions PipelineFacts.
Import Rss Extractor Telegram FetchNotions Wiring.

(** *** Counters and delivery of a successful run *)

Lemma run_success_threads (env : Env) :
  fetched env <> [] ->
  deduplicated env <> [] ->
  let r := (Pipeline.run_daily_pipeline env).1 in
  exists a1 p1 a2 p2,
    _fetch_articles env init = (a1, p1) /\
    _extract_content env a1 p1 = (a2, p2) /\
    articles_fetched (statistics r) = articles_fetched (stats p2) /\
    articles_with_content (statistics r) = articles_with_content (stats p2) /\
    exists pr meta p6,
      telegram_result r = Some (_send_telegram env pr meta p6).1 /\
      telegram_sent (statistics r)
      = podcast_sent (_send_telegram env pr meta p6).1
        || text_sent (_send_telegram env pr meta p6).1.
Proof.
  intros Hf Hd.
  destruct (run_to_deduplication env)
    as (a1 & p1 & a2 & p2 & d & p3 & E1 & E2 & E3 & Hfe & Hde & Hatt & Hflag).
  exists a1, p1, a2, p2. split; [exact E1|]. split; [exact E2|].
  pose proof (PipelineMore.deduplicate_counts env a2 p2) as C3. rewrite E3 in C3.
  cbv zeta in C3. cbn [fst snd] in C3. destruct C3 as [_ C3].
  unfold Pipeline.run_daily_pipeline. rewrite run_daily_pipeline_unfold, E1.
  rewrite Hfe in Hf. destruct a1 as [|a l]; [congruence|].
  rewrite E2, E3. rewrite Hde in Hd.
  destruct (Dedup.articles d) as [|b k] eqn:Ed; [congruence|].
  pose proof (PipelineMore.summaries_counts env (b :: k) p3) as C4.
  destruct (summaries_pass env (b :: k) p3) as [_ F4].
  destruct (_generate_summaries env (b :: k) p3) as [a4 p4].
  cbv zeta in C4. cbn [fst snd] in C4, F4.
  destruct C4 as (_ & _ & C4f & C4w & _).
  pose proof (PipelineMore.meta_summary_keeps env a4 p4) as K5.
  destruct (meta_summary_passes env a4 p4) as [_ F5].
  destruct (_create_meta_summary env a4 p4) as [ms p5]. cbn [fst snd] in K5, F5.
  pose proof (PipelineMore.podcast_keeps env ms p5) as K6.
  destruct (podcast_passes env ms p5) as [_ F6].
  destruct (_generate_podcast env ms p5) as [pr p6]. cbn [fst snd] in K6, F6.
  pose proof (PipelineMore.send_telegram_keeps env pr ms p6) as K7.
  destruct (send_telegram_effect env pr ms p6) as [_ F7].
  destruct (_send_telegram env pr ms p6) as [tr p7] eqn:E7.
  cbn [fst snd] in K7, F7.
  destruct (finish_successfully_effect a4 ms pr tr p7)
    as (_ & _ & _ & _ & Htr & Hst & _).
  cbv zeta in Htr, Hst. rewrite Htr, Hst.
  rewrite K6, K5 in K7. unfold counters in K7, C3.
  injection K7 as K7a K7b _ _ _. injection C3 as C3a C3b _ _ _.
  split; [congruence|]. split; [congruence|].
  exists pr, ms, p6. rewrite E7. cbn [fst].
  split; [reflexivity|].
  rewrite F7, F6, F5, F4, Hflag. reflexivity.
Qed.

(** *** The wired stages *)

Section Wired.

Variable base : Env.
Variable parse : feedparser.
Variable cfg : list (string * SourceInfo).
Variable download : newspaper.
Variable sender : TelegramSender.

Let env : Env := wire base parse cfg download sender.
Let batch : list Article := fetch_all_sources parse cfg.

Lemma wired_fetch (p : Processor) :
  (_fetch_articles env p).1 = batch /\
  articles_fetched (stats (_fetch_articles env p).2) = length batch /\
  articles_with_content (stats (_fetch_articles env p).2)
  = articles_with_content (stats p).
Proof. unfold _fetch_articles. stage. repeat split. Qed.

Lemma successful_count (acc articles out : list Article) :
  batch_loop download acc articles = inr out ->
  length (List.filter (fun a => default false (extraction_successful a)) out)
  = length (List.filter (fun a => default false (extraction_successful a)) acc)
    + length (List.filter (downloads download) articles).
Proof.
  revert acc. induction articles as [|b rest IH]; intros acc.
  - cbn [batch_loop]. intros H. injection H as <-. simpl. lia.
  - cbn [batch_loop]. destruct (link b) as [url|] eqn:Hb; [|discriminate].
    cbv zeta. intros H. rewrite (IH _ H), List.filter_app, length_app.
    cbn [List.filter]. unfold downloads at 2. rewrite Hb.
    unfold extract_article_content.
    destruct (download url); cbn; lia.
Qed.

Lemma wired_extract (p : Processor) :
  let out := _extract_content env batch p in
  length out.1 = length batch /\
  articles_fetched (stats out.2) = articles_fetched (stats p) /\
  articles_with_content (stats out.2)
  = length (List.filter (downloads download) batch).
Proof.
  unfold _extract_content. stage.
  destruct (ExtractFacts.batch_loop_returns download [] batch) as (out & E & L & _).
  { intros a Ha. exact (FetchFacts.fetched_links parse cfg a Ha). }
  unfold extract_content_batch. fold batch. rewrite E. cbn.
  split; [exact L|]. split; [reflexivity|].
  rewrite (successful_count [] batch out E). reflexivity.
Qed.

Lemma wired_fetched : fetched env = batch.
Proof. unfold fetched. apply wired_fetch. Qed.

Lemma wired_extracted : length (extracted env) = length batch.
Proof.
  unfold extracted.
  destruct (wired_fetch init) as (H1 & _).
  destruct (_fetch_articles env init) as [a1 p1]. cbn [fst] in H1. subst a1.
  apply wired_extract.
Qed.

Lemma wired_deduplicated : batch <> [] -> deduplicated env <> [].
Proof.
  intros Hb. apply PipelineMore.deduplicated_nonempty.
  pose proof wired_extracted as L. intros He. rewrite He in L.
  destruct batch; [congruence | discriminate].
Qed.

Lemma wired_send_telegram (pr : option PodcastResult) (meta : string) (p : Processor) :
  telegram_available sender = false ->
  let out := _send_telegram env pr meta p in
  podcast_sent out.1 = false /\ text_sent out.1 = false /\
  primary_method out.1 = Some "failed".
Proof.
  intros Hna. unfold _send_telegram, record_delivery, delivery_exception. stage.
  destruct pr as [[[] file ? ? cloud]|]; simpl.
  - match goal with |- context [if ?b then _ else _] => destruct b end;
      [repeat split|].
    destruct file as [f|]; [|repeat split].
    destruct (DeliveryFacts.send_daily_podcast_unavailable sender f (Some meta) Hna)
      as (H1 & H2 & H3).
    cbv zeta in H1, H2, H3. rewrite H1, H2. simpl. rewrite H1, H2, H3.
    repeat split.
  - destruct (DeliveryFacts.sync_unavailable sender "" meta Hna) as [_ ->].
    repeat split.
  - destruct (DeliveryFacts.sync_unavailable sender "" meta Hna) as [_ ->].
    repeat split.
Qed.

(** X25.  A run on the fetcher and the extractor of the repository
    succeeds exactly when the feeds yield an article; otherwise it ends
    with the message that nothing was fetched, and never with the one about
    deduplication.  Its statistics count the fetched batch and, under
    [articles_with_content], the articles of it whose page could be
    extracted. *)
Theorem wired_run_outcome :
  let r := (Pipeline.run_daily_pipeline env).1 in
  (status r = "success" <-> batch <> []) /\
  (batch = [] -> error r = Some "No articles fetched from RSS feeds") /\
  error r <> Some "No articles remaining after deduplication" /\
  articles_fetched (statistics r) = length batch /\
  articles_with_content (statistics r)
  = length (List.filter (downloads download) batch).
Proof.
  cbv zeta.
  assert (Hb : batch = [] \/ batch <> [])
    by (destruct batch; [left; reflexivity | right; discriminate]).
  destruct Hb as [Hb | Hb].
  - assert (Hf : fetched env = []) by (rewrite wired_fetched; exact Hb).
    destruct (wired_fetch init) as (F1 & F2 & F3).
    revert Hf. unfold fetched, Pipeline.run_daily_pipeline.
    rewrite run_daily_pipeline_unfold.
    destruct (_fetch_articles env init) as [a1 p1]. cbn [fst snd] in *.
    intros ->.
    destruct (finish_with_error_effect "No articles fetched from RSS feeds" p1)
      as (Hs & He & _ & _ & _ & _ & Hst & _).
    cbv zeta in Hs, He, Hst. rewrite Hs, He, Hst, Hb. cbn.
    rewrite Hb in F2. cbn in F2.
    split; [split; [discriminate | congruence]|].
    split; [reflexivity|]. split; [discriminate|].
    split; [exact F2 | exact F3].
  - assert (Hf : fetched env <> []) by (rewrite wired_fetched; exact Hb).
    pose proof (wired_deduplicated Hb) as Hd.
    destruct (run_past_checks env Hf Hd) as (Hs & He & _).
    destruct (run_success_threads env Hf Hd)
      as (a1 & p1 & a2 & p2 & E1 & E2 & C1 & C2 & _).
    cbv zeta in Hs, He, C1, C2. rewrite Hs, He, C1, C2.
    destruct (wired_fetch init) as (F1 & F2 & _). rewrite E1 in F1, F2.
    cbn [fst snd] in F1, F2. subst a1.
    destruct (wired_extract p1) as (_ & X2 & X3). rewrite E2 in X2, X3.
    cbv zeta in X2, X3. cbn [fst snd] in X2, X3.
    split; [split; [intros _; exact Hb | reflexivity]|].
    split; [congruence|]. split; [discriminate|].
    split; [congruence | exact X3].
Qed.

(** X26.  Without Telegram credentials a run that fetched something still
    succeeds: nothing raises in the delivery stage, the delivery report
    says ['failed'] with neither the audio nor the text sent, and the
    statistics keep [telegram_sent] false. *)
Theorem wired_run_without_telegram :
  telegram_available sender = false ->
  batch <> [] ->
  let r := (Pipeline.run_daily_pipeline env).1 in
  status r = "success" /\
  telegram_sent (statistics r) = false /\
  exists tr, telegram_result r = Some tr /\
    podcast_sent tr = false /\ text_sent tr = false /\
    primary_method tr = Some "failed".
Proof.
  intros Hna Hb. cbv zeta.
  assert (Hf : fetched env <> []) by (rewrite wired_fetched; exact Hb).
  pose proof (wired_deduplicated Hb) as Hd.
  destruct (run_past_checks env Hf Hd) as (Hs & _).
  destruct (run_success_threads env Hf Hd)
    as (a1 & p1 & a2 & p2 & _ & _ & _ & _ & pr & meta & p6 & Htr & Hsent).
  destruct (wired_send_telegram pr meta p6 Hna) as (H1 & H2 & H3).
  cbv zeta in Hs, Htr, Hsent, H1, H2, H3.
  split; [exact Hs|]. split.
  - rewrite Hsent, H1, H2. reflexivity.
  - eexists. split; [exact Htr|]. repeat split; assumption.
Qed.

End Wired.

Lemma wired_run_without_telegram_witness :
  let r := (Pipeline.run_daily_pipeline
              (wire (Sample.env (inr []) inr Sample.offline (inr true))
                 sample_feed sample_sources sample_site no_telegram)).1 in
  status r = "success" /\
  telegram_sent (statistics r) = false /\
  exists tr, telegram_result r = Some tr /\
    podcast_sent tr = false /\ text_sent tr = false /\
    primary_method tr = Some "failed".
Proof.
  apply (wired_run_without_telegram
           (Sample.env (inr []) inr Sample.offline (inr true))
           sample_feed sample_sources sample_site no_telegram).
  - reflexivity.
  - vm_compute. discriminate.
Defined.

End WiringFacts.

(** * Properties of the meta-summary *)

Module MetaFacts.

Import Summarizer MetaSummary MetaNotions.

(** *** The loop over the rows *)

Lemma valid_summaries_cons (c : Cell) (rows : list Cell) :
  valid_summaries (c :: rows)
  = (match c with
     | Text summary => if valid_summary summary then [summary] else []
     | NaN => []
     end ++ valid_summaries rows)%list.
Proof. reflexivity. Qed.

Lemma collect_summaries_gap (acc : list string) (rows : list Cell) :
  NaN ∈ rows -> exists e, collect_summaries acc rows = inl e.
Proof.
  revert acc. induction rows as [|c rows IH]; intros acc H; [inversion H|].
  destruct c as [|summary]; cbn [collect_summaries].
  - eexists; reflexivity.
  - apply elem_of_cons in H. destruct H as [H | H]; [discriminate|].
    destruct (valid_summary summary); apply IH; exact H.
Qed.

Lemma collect_summaries_complete (acc : list string) (rows : list Cell) :
  NaN ∉ rows -> collect_summaries acc rows = inr (acc ++ valid_summaries rows)%list.
Proof.
  revert acc. induction rows as [|c rows IH]; intros acc H.
  - cbn. rewrite app_nil_r. reflexivity.
  - destruct c as [|summary]; [exfalso; apply H; left|].
    assert (H' : NaN ∉ rows) by (intros Hin; apply H; right; exact Hin).
    cbn [collect_summaries]. rewrite valid_summaries_cons.
    destruct (valid_summary summary); rewrite IH by exact H'.
    + rewrite <- app_assoc. reflexivity.
    + reflexivity.
Qed.

(** X27.  What [generate_meta_summary] returns without a model: the text
    ['Meta-summary generation failed'] when a row has no summary at all;
    otherwise the text that no valid summaries are available when every
    summary is empty or starts with ['Summary generation failed']; otherwise
    the fallback meta-summary of exactly the remaining summaries, in the
    order of the rows. *)
Theorem generate_meta_summary_cases (self : AISummarizer) (post : completion)
    (rows : list Cell) :
  (NaN ∈ rows ->
   generate_meta_summary self post rows = "Meta-summary generation failed") /\
  (NaN ∉ rows -> valid_summaries rows = [] ->
   generate_meta_summary self post rows
   = "No valid summaries available for meta-summary generation") /\
  (NaN ∉ rows -> valid_summaries rows <> [] -> api_available self = false ->
   generate_meta_summary self post rows
   = _fallback_meta_summary (valid_summaries rows)).
Proof.
  unfold generate_meta_summary. split; [|split].
  - intros H. destruct (collect_summaries_gap [] rows H) as [e ->]. reflexivity.
  - intros H Hv. rewrite (collect_summaries_complete [] rows H), Hv. reflexivity.
  - intros H Hv Ha. rewrite (collect_summaries_complete [] rows H). cbn [app].
    destruct (valid_summaries rows) as [|v l]; [congruence|].
    rewrite Ha. reflexivity.
Qed.

(** X28.  With a model that answers, the meta-summary does not depend on
    the articles: the request carries a fixed prompt, in which the
    placeholder for the summaries is never filled in, so any two batches
    that have a valid summary get the same text, the stripped answer. *)
Theorem meta_summary_ignores_summaries (self : AISummarizer) (post : completion)
    (rows1 rows2 : list Cell) (content : string) :
  api_available self = true ->
  post meta_system_prompt meta_prompt = inr content ->
  NaN ∉ rows1 -> NaN ∉ rows2 ->
  valid_summaries rows1 <> [] -> valid_summaries rows2 <> [] ->
  generate_meta_summary self post rows1 = Str.strip content /\
  generate_meta_summary self post rows2 = generate_meta_summary self post rows1.
Proof.
  intros Ha Hp H1 H2 V1 V2.
  assert (E : forall rows, NaN ∉ rows -> valid_summaries rows <> [] ->
            generate_meta_summary self post rows = Str.strip content).
  { intros rows H V. unfold generate_meta_summary.
    rewrite (collect_summaries_complete [] rows H). cbn [app].
    destruct (valid_summaries rows) as [|v l]; [congruence|].
    rewrite Ha. cbv zeta. unfold _ai_meta_summarize. rewrite Hp. reflexivity. }
  rewrite (E rows1 H1 V1), (E rows2 H2 V2). split; reflexivity.
Qed.

(** *** Joining and splitting the summaries *)

Lemma no_backslash_cons (c : ascii) (s : string) :
  has_backslash (String c s) = false ->
  Ascii.eqb (ascii_of_nat 92) c = false /\ has_backslash s = false.
Proof.
  unfold has_backslash. cbn [Str.contains Str.startswith].
  intros H. apply orb_false_iff in H as [H1 H2].
  split; [|exact H2].
  destruct (Ascii.eqb (ascii_of_nat 92) c); [|reflexivity].
  destruct s; discriminate.
Qed.

Lemma split_scan_other (cur : string) (c : ascii) (t : string) :
  Ascii.eqb (ascii_of_nat 92) c = false ->
  StrMore.split_aux summaries_separator 0 cur (String c t)
  = StrMore.split_aux summaries_separator 0 (String c cur) t.
Proof.
  intros H. cbn [StrMore.split_aux]. unfold summaries_separator.
  cbn [Str.startswith].
  match goal with
  | |- context [Ascii.eqb ?x c] =>
      change (Ascii.eqb x c) with (Ascii.eqb (ascii_of_nat 92) c)
  end.
  rewrite H. reflexivity.
Qed.

Lemma split_last_piece (s cur : string) :
  has_backslash s = false ->
  StrMore.split_aux summaries_separator 0 cur s = [String.rev cur ++ s].
Proof.
  revert cur. induction s as [|c s IH]; intros cur Hs.
  - cbn [StrMore.split_aux]. rewrite SummarizerMore.append_nil_r. reflexivity.
  - apply no_backslash_cons in Hs as [Hc Hs].
    rewrite (split_scan_other cur c s Hc), IH by exact Hs.
    rewrite SummarizerMore.rev_cons_append. reflexivity.
Qed.

Lemma split_piece (s rest cur : string) :
  has_backslash s = false ->
  StrMore.split_aux summaries_separator 0 cur (s ++ summaries_separator ++ rest)
  = (String.rev cur ++ s) :: StrMore.split_aux summaries_separator 0 "" rest.
Proof.
  revert cur. induction s as [|c s IH]; intros cur Hs.
  - rewrite SummarizerMore.append_nil_r. reflexivity.
  - apply no_backslash_cons in Hs as [Hc Hs].
    change (String c s ++ summaries_separator ++ rest)
      with (String c (s ++ summaries_separator ++ rest)).
    rewrite (split_scan_other cur c _ Hc), IH by exact Hs.
    rewrite SummarizerMore.rev_cons_append. reflexivity.
Qed.

Lemma split_join (summaries : list string) :
  summaries <> [] ->
  (forall s, s ∈ summaries -> has_backslash s = false) ->
  StrMore.split summaries_separator (StrMore.join summaries_separator summaries)
  = summaries.
Proof.
  unfold StrMore.split.
  induction summaries as [|p [|q ps] IH]; intros Hne Hall; [congruence| |].
  - cbn [StrMore.join]. rewrite split_last_piece by (apply Hall; left).
    reflexivity.
  - change (StrMore.join summaries_separator (p :: q :: ps))
      with (p ++ summaries_separator ++ StrMore.join summaries_separator (q :: ps)).
    rewrite split_piece by (apply Hall; left).
    rewrite IH; [reflexivity | discriminate |].
    intros s Hs. apply Hall. right. exact Hs.
Qed.

(** X29.  A model that cannot be reached costs nothing but the script:
    when the request fails and no valid summary holds a backslash, the
    meta-summary is the fallback meta-summary of the valid summaries, the
    text a summariser without a key gives.  The summaries are joined for
    the request and split again for the fallback, and come back as they
    were. *)
Theorem failed_request_falls_back (self : AISummarizer) (post : completion)
    (rows : list Cell) (e : string) :
  api_available self = true ->
  post meta_system_prompt meta_prompt = inl e ->
  NaN ∉ rows ->
  valid_summaries rows <> [] ->
  (forall s, s ∈ valid_summaries rows -> has_backslash s = false) ->
  generate_meta_summary self post rows = _fallback_meta_summary (valid_summaries rows).
Proof.
  intros Ha Hp H V Hb. unfold generate_meta_summary.
  rewrite (collect_summaries_complete [] rows H). cbn [app].
  destruct (valid_summaries rows) as [|v l] eqn:Ev; [congruence|].
  rewrite Ha. cbv zeta. unfold _ai_meta_summarize. rewrite Hp.
  rewrite split_join; [reflexivity | discriminate | exact Hb].
Qed.

(** *** The meta-summary of a run *)

Lemma summarised_column (s : AISummarizer) (articles : list Article) :
  (NaN ∉ data_frame_column (process_article_summaries s articles)) /\
  length (data_frame_column (process_article_summaries s articles)) = length articles.
Proof.
  unfold data_frame_column, process_article_summaries.
  destruct (forallb _ _).
  - rewrite !length_map. split; [|reflexivity].
    intros H. apply list_elem_of_fmap in H. destruct H as (a & Ha & _). discriminate.
  - rewrite !length_map. split; [|reflexivity].
    intros H. apply list_elem_of_fmap in H. destruct H as (a & Ha & Hin).
    apply list_elem_of_fmap in Hin. destruct Hin as (b & -> & _).
    discriminate.
Qed.

Lemma valid_summaries_length (rows : list Cell) :
  length (valid_summaries rows) <= length rows.
Proof.
  induction rows as [|c rows IH]; [reflexivity|].
  rewrite valid_summaries_cons, length_app. cbn [length].
  destruct c as [|summary]; [simpl; lia|].
  destruct (valid_summary summary); simpl; lia.
Qed.

(** X30.  A successful run without a key for the model: its summarised
    batch has a summary in every row, so the meta-summary is never the text
    of a failed generation; it is the fallback meta-summary of the valid
    summaries, or the text that there are none, and the valid summaries are
    no more than the articles processed. *)
Theorem offline_run_meta_summary (base : Pipeline.Env) (post : completion) :
  let env := with_meta_summary base post in
  let r := (Pipeline.run_daily_pipeline env).1 in
  let rows := data_frame_column (summarised env) in
  api_available (Pipeline.summarizer base) = false ->
  Pipeline.status r = "success" ->
  (NaN ∉ rows) /\
  Pipeline.articles_processed r = Some (length rows) /\
  length (valid_summaries rows) <= length rows /\
  Pipeline.meta_summary r
  = Some match valid_summaries rows with
         | [] => "No valid summaries available for meta-summary generation"
         | _ :: _ => _fallback_meta_summary (valid_summaries rows)
         end.
Proof.
  cbv zeta. intros Ha Hs.
  set (env := with_meta_summary base post) in *.
  destruct (PipelineMore.run_cases env)
    as [(_ & Hs' & _) | [(_ & _ & Hs' & _) | (Hf & Hd & _)]];
    try (cbv zeta in Hs'; rewrite Hs' in Hs; discriminate).
  destruct (PipelineMore.run_trace env Hf Hd)
    as (p1 & p2 & d & p3 & a4 & p4 & ms & p5 & pr & p6 & tr & p7
        & _ & _ & _ & _ & E4 & E5 & _ & _ & Hrun).
  assert (Ha4 : a4 = summarised env).
  { revert E4. unfold Pipeline.NewsProcessor._generate_summaries. PipelineFacts.stage.
    intros E. injection E as <- _. reflexivity. }
  assert (Hms : ms = generate_meta_summary (Pipeline.summarizer base) post
                       (data_frame_column a4)).
  { revert E5. unfold Pipeline.NewsProcessor._create_meta_summary. PipelineFacts.stage.
    intros E. injection E as <- _. reflexivity. }
  destruct (PipelineFacts.finish_successfully_effect a4 ms pr tr p7)
    as (_ & _ & Hap & Hmeta & _).
  rewrite Hrun. cbv zeta in Hap, Hmeta. rewrite Hap, Hmeta, Hms, Ha4.
  destruct (summarised_column (Pipeline.summarizer env) (Spec.deduplicated env))
    as [Hnan Hlen].
  fold (summarised env) in Hnan, Hlen.
  split; [exact Hnan|]. split.
  { rewrite Hlen. unfold summarised, process_article_summaries.
    rewrite length_map. reflexivity. }
  split; [apply valid_summaries_length|].
  f_equal. unfold generate_meta_summary.
  rewrite (collect_summaries_complete [] _ Hnan). cbn [app].
  destruct (valid_summaries (data_frame_column (summarised env))); [reflexivity|].
  rewrite Ha. reflexivity.
Qed.

Lemma meta_summary_ignores_summaries_witness :
  generate_meta_summary (Sample.answering "ok") scripted [Text "Rates rise."]
  = Str.strip " Good evening. " /\
  generate_meta_summary (Sample.answering "ok") scripted [Text "Rain falls."; Text ""]
  = generate_meta_summary (Sample.answering "ok") scripted [Text "Rates rise."].
Proof.
  apply (meta_summary_ignores_summaries (Sample.answering "ok") scripted
           [Text "Rates rise."] [Text "Rain falls."; Text ""] " Good evening. ").
  - reflexivity.
  - reflexivity.
  - intros H. apply elem_of_cons in H. destruct H as [H | H]; [discriminate | inversion H].
  - intros H. apply elem_of_cons in H. destruct H as [H | H]; [discriminate|].
    apply elem_of_cons in H. destruct H as [H | H]; [discriminate | inversion H].
  - vm_compute. discriminate.
  - vm_compute. discriminate.
Defined.

Lemma failed_request_falls_back_witness :
  generate_meta_summary (Sample.answering "ok") unreachable
    [Text "Rates rise."; Text "Summary generation failed - x"; Text "Rain falls."]
  = _fallback_meta_summary
      (valid_summaries
         [Text "Rates rise."; Text "Summary generation failed - x"; Text "Rain falls."]).
Proof.
  apply (failed_request_falls_back (Sample.answering "ok") unreachable
           [Text "Rates rise."; Text "Summary generation failed - x"; Text "Rain falls."]
           "timeout").
  - reflexivity.
  - reflexivity.
  - intros H. repeat (apply elem_of_cons in H; destruct H as [H | H]; [discriminate|]).
    inversion H.
  - vm_compute. discriminate.
  - intros s H. vm_compute in H.
    repeat (apply elem_of_cons in H; destruct H as [-> | H]; [reflexivity|]).
    inversion H.
Defined.

Lemma offline_run_meta_summary_witness :
  let env := with_meta_summary
               (Sample.env (inr [Sample.long_article]) inr Sample.offline (inr true))
               unreachable in
  let r := (Pipeline.run_daily_pipeline env).1 in
  let rows := data_frame_column (summarised env) in
  (NaN ∉ rows) /\
  Pipeline.articles_processed r = Some (length rows) /\
  length (valid_summaries rows) <= length rows /\
  Pipeline.meta_summary r
  = Some match valid_summaries rows with
         | [] => "No valid summaries available for meta-summary generation"
         | _ :: _ => _fallback_meta_summary (valid_summaries rows)
         end.
Proof.
  apply (offline_run_meta_summary
           (Sample.env (inr [Sample.long_article]) inr Sample.offline (inr true))
           unreachable).
  - reflexivity.
  - reflexivity.
Defined.

End MetaFacts.
